(** * Call-signaling relay: session and presence state machine

    Shallow embedding of [src/signaling-server.js].  The server keeps two
    process-wide objects, [users] (role -> socket id) and
    [activeCallSessions] (session id -> record), and every socket carries two
    ad-hoc properties, [socket.role] and [socket.sessionId].  Each Socket.IO
    event handler runs to completion on the single-threaded event loop, so a
    handler is a function from the server state to a new state and the list
    of effects it caused.

    Conventions of the model:
    - identities, socket ids, session ids and payloads are strings;
    - [users] is an object literal, so it inherits the members of
      [Object.prototype]: reading [users[k]] for a member name without own
      entry gives the inherited (truthy) value, and assigning
      [users["__proto__"]] a string stores nothing.  The keys of
      [activeCallSessions] that the handlers read come from
      [socket.sessionId], which only ever holds an identifier made by the
      [call] handler; such an identifier ends in a digit and is no member
      name (see [new_sessionId_not_inherited] and [run_links_generated]),
      so that table is read as a plain finite map;
    - [Date.now()] is an input of the [call] handler (an integer number of
      milliseconds), printed in decimal inside the template literal;
    - a socket object starts without [role] and [sessionId]; a socket id
      absent from [sockets] stands for such a fresh object;
    - [console.log] lines are terminal diagnostics and are elided;
      [console.warn] is kept, since it is the only trace of a rejected
      recording request;
    - the media-relay calls exist in the source as comments only, so no
      effect stands for them. *)

From Stdlib Require Import Ascii.
From stdpp Require Import gmap strings pretty.

Open Scope string_scope.
Open Scope list_scope.

(** ** Data model *)

Definition Payload := string.

Inductive Status := calling | connected.

Record Session := { from : string; to : string; status : Status }.

Record Socket := { role : option string; sessionId : option string }.

Record Server := {
  users : gmap string string;
  activeCallSessions : gmap string Session;
  sockets : gmap string Socket
}.

Inductive Message :=
  | incoming_call (sender : string) (offer : Payload)
  | call_session_info (session : string)
  | call_answered (sender : string) (answer : Payload)
  | ice_candidate (sender : string) (candidate : Payload)
  | call_ended (sender : string)
  | start_recording_signal (sender : string)
  | stop_recording_signal (sender : string).

(** [Emit room m] is [io.to(room).emit(...)] for a socket id [room];
    [EmitToInherited k m] is the same call when the room is the value that
    [users] inherits from [Object.prototype] under the name [k], a function
    or an object that no socket has joined. *)
Inductive Effect :=
  | Emit (room : string) (m : Message)
  | EmitToInherited (member : string) (m : Message)
  | Warn (line : string).

Inductive Event :=
  | register (r : string)
  | call (src dst : string) (offer : Payload)
  | answer (src dst : string) (ans : Payload)
  | ice (src dst : string) (candidate : Payload)
  | end_call (src dst : string)
  | start_recording_request (src dst : string)
  | stop_recording_request (src dst : string)
  | disconnect.

#[global] Instance Status_eq_dec : EqDecision Status.
Proof. solve_decision. Defined.
#[global] Instance Session_eq_dec : EqDecision Session.
Proof. solve_decision. Defined.
#[global] Instance Message_eq_dec : EqDecision Message.
Proof. solve_decision. Defined.

Definition fresh_socket : Socket := {| role := None; sessionId := None |}.

Definition init : Server :=
  {| users := ∅; activeCallSessions := ∅; sockets := ∅ |}.

(** JavaScript truthiness of a property that is [undefined] or a string:
    the value when it is a non-empty string. *)
Definition truthy (v : option string) : option string :=
  match v with
  | Some s => if decide (s = "") then None else Some s
  | None => None
  end.

(** The own property names of [Object.prototype]. *)
Definition Object_prototype : list string :=
  [ "constructor"; "__defineGetter__"; "__defineSetter__"; "hasOwnProperty";
    "__lookupGetter__"; "__lookupSetter__"; "isPrototypeOf";
    "propertyIsEnumerable"; "toString"; "valueOf"; "__proto__";
    "toLocaleString" ].

(** What reading a property of [users] yields. *)
Inductive Value :=
  | undefined
  | text (s : string)
  | inherited (member : string).

#[global] Instance Value_eq_dec : EqDecision Value.
Proof. solve_decision. Defined.

(** [users[k]]: the own entry when there is one, else what the prototype
    chain gives. *)
Definition users_at (u : gmap string string) (k : string) : Value :=
  match u !! k with
  | Some id => text id
  | None => if decide (k ∈ Object_prototype) then inherited k else undefined
  end.

(** [users[r] = id]: an ordinary assignment, except under the name
    [__proto__], whose inherited setter ignores a string. *)
Definition users_set (k id : string) (u : gmap string string) : gmap string string :=
  if decide (k = "__proto__") then u else <[k := id]> u.

(** A truthy value of [users[k]], as the room [io.to] is given. *)
Inductive Room :=
  | socket_room (id : string)
  | inherited_room (member : string).

Definition room_of (v : Value) : option Room :=
  match v with
  | undefined => None
  | text s => if decide (s = "") then None else Some (socket_room s)
  | inherited k => Some (inherited_room k)
  end.

Definition emit_effect (room : Room) (m : Message) : Effect :=
  match room with
  | socket_room id => Emit id m
  | inherited_room k => EmitToInherited k m
  end.

(** ** Handlers as state transformers with an effect log *)

Definition Handler (A : Type) : Type := Server → A * Server * list Effect.

#[global] Instance Handler_ret : MRet Handler := λ A a st, (a, st, []).
#[global] Instance Handler_bind : MBind Handler := λ A B f m st,
  let '(a, st1, out1) := m st in
  let '(b, st2, out2) := f a st1 in
  (b, st2, out1 ++ out2).

Definition socket_of (st : Server) (id : string) : Socket :=
  default fresh_socket (sockets st !! id).

Definition get_users (k : string) : Handler Value :=
  λ st, (users_at (users st) k, st, []).
Definition get_session (k : string) : Handler (option Session) :=
  λ st, (activeCallSessions st !! k, st, []).
Definition get_socket (id : string) : Handler Socket :=
  λ st, (socket_of st id, st, []).

Definition upd_users (f : gmap string string → gmap string string) : Handler unit :=
  λ st, (tt, {| users := f (users st);
                activeCallSessions := activeCallSessions st;
                sockets := sockets st |}, []).
Definition upd_sessions (f : gmap string Session → gmap string Session) : Handler unit :=
  λ st, (tt, {| users := users st;
                activeCallSessions := f (activeCallSessions st);
                sockets := sockets st |}, []).
Definition upd_socket (id : string) (f : Socket → Socket) : Handler unit :=
  λ st, (tt, {| users := users st;
                activeCallSessions := activeCallSessions st;
                sockets := <[id := f (socket_of st id)]> (sockets st) |}, []).

Definition emit (room : Room) (m : Message) : Handler unit :=
  λ st, (tt, st, [emit_effect room m]).
Definition warn (line : string) : Handler unit :=
  λ st, (tt, st, [Warn line]).

Definition set_role (r : string) (s : Socket) : Socket :=
  {| role := Some r; sessionId := sessionId s |}.
Definition set_sessionId (k : string) (s : Socket) : Socket :=
  {| role := role s; sessionId := Some k |}.
Definition set_status (v : Status) (s : Session) : Session :=
  {| from := from s; to := to s; status := v |}.

(** [`${from}_${to}_${Date.now()}`] *)
Definition new_sessionId (src dst : string) (now : Z) : string :=
  src +:+ "_" +:+ dst +:+ "_" +:+ pretty now.

(** [activeCallSessions[sessionId].from === socket.role ||
     activeCallSessions[sessionId].to === socket.role] *)
Definition involves (r : string) (s : Session) : Prop := from s = r ∨ to s = r.

#[global] Instance involves_dec r s : Decision (involves r s).
Proof. unfold involves. apply _. Defined.

(** The [for ... in] loop of the disconnect handler: every key of the table
    is visited once, and the visited entry is deleted when the role is its
    initiator or its target. *)
Definition cleanup_sessions (r : string) (m : gmap string Session) : gmap string Session :=
  map_fold (λ k s acc, if decide (involves r s) then delete k acc else acc) m m.

Definition on_register (id r : string) : Handler unit :=
  upd_users (users_set r id) ;;
  upd_socket id (set_role r).

Definition on_call (now : Z) (id src dst : string) (offer : Payload) : Handler unit :=
  u ← get_users dst;
  match room_of u with
  | Some room =>
      emit room (incoming_call src offer) ;;
      let k := new_sessionId src dst now in
      upd_sessions <[k := {| from := src; to := dst; status := calling |}]> ;;
      upd_socket id (set_sessionId k) ;;
      emit room (call_session_info k)
  | None => mret tt
  end.

Definition on_answer (id src dst : string) (ans : Payload) : Handler unit :=
  u ← get_users dst;
  match room_of u with
  | Some room =>
      emit room (call_answered src ans) ;;
      sock ← get_socket id;
      match truthy (sessionId sock) with
      | Some k =>
          s ← get_session k;
          match s with
          | Some _ => upd_sessions (alter (set_status connected) k)
          | None => mret tt
          end
      | None => mret tt
      end
  | None => mret tt
  end.

Definition on_ice_candidate (id src dst : string) (candidate : Payload) : Handler unit :=
  u ← get_users dst;
  match room_of u with
  | Some room => emit room (ice_candidate src candidate)
  | None => mret tt
  end.

Definition on_end_call (id src dst : string) : Handler unit :=
  u ← get_users dst;
  match room_of u with
  | Some room =>
      emit room (call_ended src) ;;
      sock ← get_socket id;
      match truthy (sessionId sock) with
      | Some k =>
          s ← get_session k;
          match s with
          | Some _ => upd_sessions (delete k)
          | None => mret tt
          end
      | None => mret tt
      end
  | None => mret tt
  end.

Definition on_start_recording_request (id src dst : string) : Handler unit :=
  sock ← get_socket id;
  s ← match truthy (sessionId sock) with
      | Some k => get_session k
      | None => mret None
      end;
  match s with
  | None => warn ("No active session found for " +:+ src +:+ " to start recording.")
  | Some _ =>
      a ← get_users src;
      match room_of a with
      | Some room => emit room (start_recording_signal src)
      | None => mret tt
      end ;;
      b ← get_users dst;
      match room_of b with
      | Some room => emit room (start_recording_signal src)
      | None => mret tt
      end
  end.

Definition on_stop_recording_request (id src dst : string) : Handler unit :=
  sock ← get_socket id;
  s ← match truthy (sessionId sock) with
      | Some k => get_session k
      | None => mret None
      end;
  match s with
  | None => warn ("No active session found for " +:+ src +:+ " to stop recording.")
  | Some _ =>
      a ← get_users src;
      match room_of a with
      | Some room => emit room (stop_recording_signal src)
      | None => mret tt
      end ;;
      b ← get_users dst;
      match room_of b with
      | Some room => emit room (stop_recording_signal src)
      | None => mret tt
      end
  end.

Definition on_disconnect (id : string) : Handler unit :=
  sock ← get_socket id;
  match truthy (role sock) with
  | Some r =>
      u ← get_users r;
      if decide (u = text id) then
        upd_users (delete r) ;;
        upd_sessions (cleanup_sessions r)
      else mret tt
  | None => mret tt
  end.

(** One event delivered on socket [id] at clock reading [now]. *)
Definition handle (now : Z) (id : string) (e : Event) : Handler unit :=
  match e with
  | register r => on_register id r
  | call src dst offer => on_call now id src dst offer
  | answer src dst ans => on_answer id src dst ans
  | ice src dst c => on_ice_candidate id src dst c
  | end_call src dst => on_end_call id src dst
  | start_recording_request src dst => on_start_recording_request id src dst
  | stop_recording_request src dst => on_stop_recording_request id src dst
  | disconnect => on_disconnect id
  end.

Record Input := { at_ms : Z; on_socket : string; event : Event }.

Definition step (i : Input) : Handler unit :=
  handle (at_ms i) (on_socket i) (event i).

Fixpoint run (tr : list Input) : Handler unit :=
  match tr with
  | [] => mret tt
  | i :: tr' => step i ;; run tr'
  end.

Definition state_after (h : Handler unit) (st : Server) : Server := (h st).1.2.
Definition effects_of (h : Handler unit) (st : Server) : list Effect := (h st).2.

(** The outbound messages among the effects that are addressed to a socket
    id, with their rooms. *)
Definition emits (out : list Effect) : list (string * Message) :=
  omap (λ e, match e with Emit room m => Some (room, m) | _ => None end) out.

(** The session a socket resolves to through its [sessionId] link. *)
Definition session_of_socket (st : Server) (id : string) : option Session :=
  k ← sessionId (socket_of st id); activeCallSessions st !! k.

(** What the transport guarantees and the handlers maintain: the socket ids
    stored in [users] and the session ids stored on sockets are non-empty
    strings, hence truthy. *)
Definition well_formed (st : Server) : Prop :=
  (∀ r id, users st !! r = Some id → id ≠ "")
  ∧ (∀ c k, sessionId (socket_of st c) = Some k → k ≠ "").

(** ** Traces used as concrete inputs *)

Definition ev (t : Z) (id : string) (e : Event) : Input :=
  {| at_ms := t; on_socket := id; event := e |}.

Definition exec (tr : list Input) : Server := state_after (run tr) init.

(** userA on socket sA and userB on socket sB register; userA calls userB. *)
Definition two_registered : list Input :=
  [ ev 1000 "sA" (register "userA");
    ev 1001 "sB" (register "userB") ].
Definition two_party_call : list Input :=
  two_registered ++ [ ev 1002 "sA" (call "userA" "userB" "offer") ].

(** userB answers on its own socket. *)
Definition answered_call : list Input :=
  two_party_call ++ [ ev 1003 "sB" (answer "userB" "userA" "answer") ].


(** userA registers again from a second socket; the first one then drops. *)
Definition reregistered : list Input :=
  two_party_call ++ [ ev 1003 "sA2" (register "userA") ].

(** Two calls of the same pair handled within one millisecond. *)
Definition same_ms_calls : list Input :=
  [ ev 1000 "sB" (register "userB");
    ev 1001 "sA" (call "userA" "userB" "offer1");
    ev 1001 "sA" (call "userA" "userB" "offer2") ].

(** Two different pairs whose names concatenate to the same text. *)
Definition same_text_calls : list Input :=
  [ ev 1000 "s1" (register "c");
    ev 1000 "s2" (register "b_c");
    ev 1001 "s3" (call "a_b" "c" "offer1");
    ev 1001 "s4" (call "a" "b_c" "offer2") ].

(** Both parties dial each other; userB answers userA's call, which marks
    userB's own outgoing session connected. *)
Definition glare : list Input :=
  [ ev 1000 "sA" (register "userA");
    ev 1001 "sB" (register "userB");
    ev 1002 "sB" (call "userB" "userA" "offerB");
    ev 1002 "sA" (call "userA" "userB" "offerA") ].
Definition glare_answered : list Input :=
  glare ++ [ ev 1002 "sB" (answer "userB" "userA" "answer") ].
(** userB dials again before the clock has advanced. *)
Definition glare_redial : list Input :=
  glare_answered ++ [ ev 1002 "sB" (call "userB" "userA" "offerB2") ].

(** Two sockets register the role [__proto__], one after the other. *)
Definition registered_proto : list Input :=
  [ ev 1000 "sA" (register "__proto__");
    ev 1001 "sB" (register "__proto__") ].

(** userB dialled userA earlier and hung up itself: its record is gone and
    its socket keeps the stale link. *)
Definition callee_stale_link : list Input :=
  two_registered ++
  [ ev 1002 "sB" (call "userB" "userA" "offerB");
    ev 1003 "sB" (end_call "userB" "userA") ].

(** A call made and ended on socket sB under userA's name, and then
    userA's own call at the same clock reading, which gets the id that sB is
    still linked to. *)
Definition stale_link_reused : list Input :=
  two_registered ++
  [ ev 1002 "sB" (call "userA" "userB" "offer0");
    ev 1002 "sB" (end_call "userA" "userB");
    ev 1002 "sA" (call "userA" "userB" "offer") ].

(** The last character of a string. *)
Fixpoint last_char (s : string) : option ascii :=
  match s with
  | EmptyString => None
  | String a s' => match s' with EmptyString => Some a | _ => last_char s' end
  end.

Definition is_digit (a : ascii) : bool :=
  bool_decide (a ∈ ["0"; "1"; "2"; "3"; "4"; "5"; "6"; "7"; "8"; "9"]%char).


(** ** Vocabulary of the further properties *)

(** The objects an event's handler assigns to or deletes from. *)
Definition writes_users (e : Event) : bool :=
  match e with register _ | disconnect => true | _ => false end.
Definition writes_sockets (e : Event) : bool :=
  match e with register _ | call _ _ _ => true | _ => false end.
Definition writes_sessions (e : Event) : bool :=
  match e with
  | call _ _ _ | answer _ _ _ | end_call _ _ | disconnect => true
  | _ => false
  end.

(** Where an effect may be addressed: a socket id that some role maps to,
    or the value inherited under a member name without own entry. *)
Definition routed (st : Server) (eff : Effect) : Prop :=
  match eff with
  | Emit room _ => ∃ r, users st !! r = Some room ∧ room ≠ ""
  | EmitToInherited k _ => users st !! k = None ∧ k ∈ Object_prototype
  | Warn _ => True
  end.

(** Every record sits under an identifier built from its own two names. *)
Definition keyed_by_pair (m : gmap string Session) : Prop :=
  ∀ k s, m !! k = Some s → ∃ t, k = new_sessionId (from s) (to s) t.

(** Names in which the separator of the identifier does not occur. *)
Fixpoint underscore_free (s : string) : bool :=
  match s with
  | EmptyString => true
  | String a s' => if decide (a = "_"%char) then false else underscore_free s'
  end.

(** userA dials userB and then userC from the same socket. *)
Definition two_calls_one_socket : list Input :=
  [ ev 1000 "sA" (register "userA");
    ev 1001 "sB" (register "userB");
    ev 1002 "sC" (register "userC");
    ev 1003 "sA" (call "userA" "userB" "offer1");
    ev 1004 "sA" (call "userA" "userC" "offer2") ].

(** ** Unfolding handlers *)

Ltac unfold_handler :=
  unfold state_after, effects_of, step, handle,
    on_register, on_call, on_answer, on_ice_candidate, on_end_call,
    on_start_recording_request, on_stop_recording_request, on_disconnect,
    get_users, get_session, get_socket, upd_users, upd_sessions, upd_socket,
    emit, warn, mbind, Handler_bind, mret, Handler_ret in *;
  simpl in *.

Lemma truthy_Some (s : string) : s ≠ "" → truthy (Some s) = Some s.
Proof. intros H. unfold truthy. by destruct (decide (s = "")). Qed.

Lemma truthy_is_Some (v : option string) (s : string) :
  truthy v = Some s → v = Some s ∧ s ≠ "".
Proof.
  destruct v as [t|]; simpl; [|done].
  destruct (decide (t = "")); [done|]. by intros [= ->].
Qed.

Lemma truthy_None_of_missing (v : option string) : v = None → truthy v = None.
Proof. by intros ->. Qed.

Lemma users_at_own (u : gmap string string) (k id : string) :
  u !! k = Some id → users_at u k = text id.
Proof. unfold users_at. by intros ->. Qed.

Lemma room_of_own (u : gmap string string) (k id : string) :
  u !! k = Some id → id ≠ "" → room_of (users_at u k) = Some (socket_room id).
Proof.
  intros H Hne. rewrite (users_at_own u k id H). simpl.
  by destruct (decide (id = "")).
Qed.

Lemma room_of_absent (u : gmap string string) (k : string) :
  u !! k = None → k ∉ Object_prototype → room_of (users_at u k) = None.
Proof. unfold users_at. intros -> H. by destruct (decide (k ∈ Object_prototype)). Qed.

Lemma room_of_inherited (u : gmap string string) (k : string) :
  u !! k = None → k ∈ Object_prototype →
  room_of (users_at u k) = Some (inherited_room k).
Proof. unfold users_at. intros -> H. by destruct (decide (k ∈ Object_prototype)). Qed.

Lemma room_of_socket_room (u : gmap string string) (k id : string) :
  room_of (users_at u k) = Some (socket_room id) → u !! k = Some id ∧ id ≠ "".
Proof.
  unfold users_at. destruct (u !! k) as [id'|]; simpl.
  - destruct (decide (id' = "")); [done|]. by intros [= <-].
  - by destruct (decide (k ∈ Object_prototype)).
Qed.

Lemma room_of_inherited_room (u : gmap string string) (k member : string) :
  room_of (users_at u k) = Some (inherited_room member) →
  member = k ∧ u !! k = None ∧ k ∈ Object_prototype.
Proof.
  unfold users_at. destruct (u !! k) as [id'|]; simpl.
  - by destruct (decide (id' = "")).
  - destruct (decide (k ∈ Object_prototype)); [|done]. by intros [= <-].
Qed.

Lemma new_sessionId_nonempty src dst now : new_sessionId src dst now ≠ "".
Proof. unfold new_sessionId. by destruct src. Qed.

(** ** Well-formed states *)

Lemma state_after_bind (h1 h2 : Handler unit) (st : Server) :
  state_after (h1 ;; h2) st = state_after h2 (state_after h1 st).
Proof.
  unfold state_after, mbind, Handler_bind.
  destruct (h1 st) as [[[] st1] out1]. simpl. by destruct (h2 st1) as [[[] st2] out2].
Qed.

Lemma effects_of_bind (h1 h2 : Handler unit) (st : Server) :
  effects_of (h1 ;; h2) st = effects_of h1 st ++ effects_of h2 (state_after h1 st).
Proof.
  unfold effects_of, state_after, mbind, Handler_bind.
  destruct (h1 st) as [[[] st1] out1]. simpl. by destruct (h2 st1) as [[[] st2] out2].
Qed.

Lemma init_well_formed : well_formed init.
Proof. split; intros ??; unfold socket_of; simpl; by rewrite ?lookup_empty. Qed.

Lemma handle_well_formed (st : Server) (now : Z) (c : string) (e : Event) :
  c ≠ "" → well_formed st → well_formed (state_after (handle now c e) st).
Proof.
  intros Hc [Hu Hs].
  destruct e as [r|src dst offer|src dst p|src dst p|src dst|src dst|src dst|];
    unfold_handler.
  - split; simpl.
    + intros r' id. unfold users_set. case_decide; [apply Hu|].
      rewrite lookup_insert. case_decide; [by intros [= <-]|eauto].
    + intros c' k. unfold socket_of. simpl. rewrite lookup_insert.
      case_decide as E; [subst c'; simpl; apply Hs|apply Hs].
  - destruct (room_of (users_at (users st) dst)); simpl; [|done].
    split; simpl; [done|].
    intros c' k. unfold socket_of. simpl. rewrite lookup_insert.
    case_decide; [|apply Hs]. simpl. intros [= <-]. apply new_sessionId_nonempty.
  - destruct (room_of (users_at (users st) dst)); simpl; [|done].
    destruct (truthy (sessionId (socket_of st c))) as [k'|]; simpl; [|done].
    by destruct (activeCallSessions st !! k').
  - by destruct (room_of (users_at (users st) dst)).
  - destruct (room_of (users_at (users st) dst)); simpl; [|done].
    destruct (truthy (sessionId (socket_of st c))) as [k'|]; simpl; [|done].
    by destruct (activeCallSessions st !! k').
  - destruct (truthy (sessionId (socket_of st c))) as [k'|]; simpl; [|done].
    destruct (activeCallSessions st !! k'); simpl; [|done].
    by destruct (room_of (users_at (users st) src)), (room_of (users_at (users st) dst)).
  - destruct (truthy (sessionId (socket_of st c))) as [k'|]; simpl; [|done].
    destruct (activeCallSessions st !! k'); simpl; [|done].
    by destruct (room_of (users_at (users st) src)), (room_of (users_at (users st) dst)).
  - destruct (truthy (role (socket_of st c))) as [r|]; simpl; [|done].
    destruct (decide (users_at (users st) r = text c)); simpl; [|done].
    split; simpl; [|done].
    intros r' id. rewrite lookup_delete. case_decide; [done|apply Hu].
Qed.

Lemma run_well_formed (tr : list Input) (st : Server) :
  Forall (λ i, on_socket i ≠ "") tr → well_formed st →
  well_formed (state_after (run tr) st).
Proof.
  intros Htr. revert st. induction Htr as [|i tr Hi _ IH]; intros st Hst; [done|].
  simpl. rewrite state_after_bind. apply IH. by apply handle_well_formed.
Qed.

(** ** Generated identifiers are no member names *)

Lemma last_char_app (a b : string) : b ≠ "" → last_char (a +:+ b) = last_char b.
Proof.
  intros Hb. induction a as [|x a IH]; [done|].
  change (String x a +:+ b) with (String x (a +:+ b)).
  cbn [last_char]. rewrite IH.
  destruct (a +:+ b) eqn:E; [|done]. by destruct a, b.
Qed.

Lemma pretty_N_char_digit (x : N) : is_digit (pretty_N_char x) = true.
Proof. unfold pretty_N_char. by repeat case_match. Qed.

Lemma pretty_N_go_last_char (x : N) (s : string) :
  s ≠ "" → last_char (pretty_N_go x s) = last_char s.
Proof.
  revert s. induction (N.lt_wf_0 x) as [x _ IH]; intros s Hs.
  assert (x = 0 ∨ 0 < x)%N as [->|Hx] by lia; [by rewrite pretty_N_go_0|].
  rewrite pretty_N_go_step by done.
  rewrite IH; [|by apply N.div_lt|done]. by destruct s.
Qed.

Lemma pretty_N_last_digit (x : N) :
  ∃ d, last_char (pretty x) = Some d ∧ is_digit d = true.
Proof.
  unfold pretty, pretty_N. case_decide as Hx; [by exists "0"%char|].
  rewrite pretty_N_go_step by lia.
  rewrite pretty_N_go_last_char by done.
  eexists. split; [done|]. apply pretty_N_char_digit.
Qed.

Lemma pretty_Z_last_digit (t : Z) :
  ∃ d, last_char (pretty t) = Some d ∧ is_digit d = true.
Proof.
  destruct t as [|q|q]; unfold pretty, pretty_Z.
  - by exists "0"%char.
  - apply (pretty_N_last_digit (Npos q)).
  - destruct (pretty_N_last_digit (Npos q)) as (d & Hd & ?).
    exists d. split; [|done]. rewrite last_char_app; [done|].
    intros E. unfold pretty, pretty_positive in E. by rewrite E in Hd.
Qed.

Lemma new_sessionId_last_digit (src dst : string) (now : Z) :
  ∃ d, last_char (new_sessionId src dst now) = Some d ∧ is_digit d = true.
Proof.
  destruct (pretty_Z_last_digit now) as (d & Hd & ?).
  assert (pretty now ≠ "") as Hne by (intros E; by rewrite E in Hd).
  exists d. split; [|done]. unfold new_sessionId.
  rewrite last_char_app by done.
  rewrite last_char_app by (by destruct dst).
  rewrite last_char_app by done.
  by rewrite last_char_app.
Qed.

(** An identifier made by the [call] handler ends in a decimal digit, which
    no member name of [Object.prototype] does. *)
Lemma new_sessionId_not_inherited (src dst : string) (now : Z) :
  new_sessionId src dst now ∉ Object_prototype.
Proof.
  destruct (new_sessionId_last_digit src dst now) as (d & Hd & Hdigit).
  intros Hin.
  assert (Forall (λ m, ∀ a, last_char m = Some a → is_digit a = false) Object_prototype)
    as Hall.
  { repeat constructor; intros a [= <-]; by vm_compute. }
  rewrite Forall_forall in Hall. specialize (Hall _ Hin d Hd). congruence.
Qed.

Lemma handle_links_generated (st : Server) (now : Z) (c : string) (e : Event) :
  (∀ c' k, sessionId (socket_of st c') = Some k →
           ∃ src dst t, k = new_sessionId src dst t) →
  ∀ c' k, sessionId (socket_of (state_after (handle now c e) st) c') = Some k →
          ∃ src dst t, k = new_sessionId src dst t.
Proof.
  intros Hinv c' k.
  destruct e as [r|src dst offer|src dst p|src dst p|src dst|src dst|src dst|];
    unfold_handler.
  - unfold socket_of. simpl. rewrite lookup_insert.
    case_decide; [subst c'; simpl|]; apply Hinv.
  - destruct (room_of (users_at (users st) dst)); simpl; [|apply Hinv].
    unfold socket_of. simpl. rewrite lookup_insert.
    case_decide; [|apply Hinv]. simpl. intros [= <-]. by exists src, dst, now.
  - destruct (room_of (users_at (users st) dst)); simpl; [|apply Hinv].
    destruct (truthy (sessionId (socket_of st c))) as [k'|]; simpl; [|apply Hinv].
    destruct (activeCallSessions st !! k'); apply Hinv.
  - destruct (room_of (users_at (users st) dst)); apply Hinv.
  - destruct (room_of (users_at (users st) dst)); simpl; [|apply Hinv].
    destruct (truthy (sessionId (socket_of st c))) as [k'|]; simpl; [|apply Hinv].
    destruct (activeCallSessions st !! k'); apply Hinv.
  - destruct (truthy (sessionId (socket_of st c))) as [k'|]; simpl; [|apply Hinv].
    destruct (activeCallSessions st !! k'); simpl; [|apply Hinv].
    destruct (room_of (users_at (users st) src)), (room_of (users_at (users st) dst));
      apply Hinv.
  - destruct (truthy (sessionId (socket_of st c))) as [k'|]; simpl; [|apply Hinv].
    destruct (activeCallSessions st !! k'); simpl; [|apply Hinv].
    destruct (room_of (users_at (users st) src)), (room_of (users_at (users st) dst));
      apply Hinv.
  - destruct (truthy (role (socket_of st c))) as [r|]; simpl; [|apply Hinv].
    destruct (decide (users_at (users st) r = text c)); apply Hinv.
Qed.

(** Along every run from the empty server, the [sessionId] of a socket is an
    identifier made by the [call] handler, hence no member name of
    [Object.prototype]: the reads [activeCallSessions[sessionId]] of the
    handlers never reach the prototype chain. *)
Lemma run_links_generated (tr : list Input) (c k : string) :
  sessionId (socket_of (exec tr) c) = Some k →
  (∃ src dst t, k = new_sessionId src dst t) ∧ k ∉ Object_prototype.
Proof.
  assert (∀ tr st,
    (∀ c' k', sessionId (socket_of st c') = Some k' →
              ∃ src dst t, k' = new_sessionId src dst t) →
    ∀ c' k', sessionId (socket_of (state_after (run tr) st) c') = Some k' →
             ∃ src dst t, k' = new_sessionId src dst t) as Hrun.
  { clear. induction tr as [|i tr IH]; intros st Hst; [done|].
    simpl. rewrite state_after_bind. apply IH. by apply handle_links_generated. }
  intros Hk. unfold exec in Hk.
  destruct (Hrun tr init) with (c' := c) (k' := k) as (src & dst & t & ->);
    [|done|].
  - intros c' k'. unfold socket_of. simpl. by rewrite lookup_empty.
  - split; [by exists src, dst, t|]. apply new_sessionId_not_inherited.
Qed.

(** ** The cleanup loop *)

Lemma cleanup_fold_lookup (r : string) (acc m : gmap string Session) (k : string) :
  map_fold (λ k s acc, if decide (involves r s) then delete k acc else acc) acc m !! k
  = match m !! k with
    | Some s => if decide (involves r s) then None else acc !! k
    | None => acc !! k
    end.
Proof.
  revert k.
  apply (map_fold_weak_ind (λ res m', ∀ k,
    res !! k = match m' !! k with
               | Some s => if decide (involves r s) then None else acc !! k
               | None => acc !! k
               end)); clear m.
  - intros k. by rewrite lookup_empty.
  - intros i x m res Hi IH k.
    destruct (decide (i = k)) as [->|Hne].
    + rewrite lookup_insert_eq.
      destruct (decide (involves r x)).
      * by rewrite lookup_delete_eq.
      * by rewrite IH, Hi.
    + rewrite lookup_insert_ne by done.
      destruct (decide (involves r x)).
      * rewrite lookup_delete_ne by done. apply IH.
      * apply IH.
Qed.

Lemma cleanup_sessions_lookup (r : string) (m : gmap string Session) (k : string) :
  cleanup_sessions r m !! k
  = match m !! k with
    | Some s => if decide (involves r s) then None else Some s
    | None => None
    end.
Proof.
  unfold cleanup_sessions. rewrite cleanup_fold_lookup.
  destruct (m !! k) eqn:E; [|done]. by destruct (decide (involves r s)).
Qed.

Lemma cleanup_sessions_filter (r : string) (m : gmap string Session) :
  cleanup_sessions r m = filter (λ kv, ¬ involves r kv.2) m.
Proof.
  apply map_eq. intros k. rewrite cleanup_sessions_lookup, map_lookup_filter.
  destruct (m !! k) as [s|]; simpl; [|done].
  destruct (decide (involves r s)).
  - by rewrite option_guard_False by (simpl; tauto).
  - by rewrite option_guard_True.
Qed.

(** ** Registration *)

(** For every role other than [__proto__] registration is last-writer-wins:
    after [register A] on [connA] and then [register A] on [connB], the own
    entry of [A] in [users] is [connB] and reading [users[A]] gives it,
    whatever the state was before; the two registrations have no effect
    (no message, no warning). *)
Lemma register_overwrites (st : Server) (t1 t2 : Z) (A connA connB : string) :
  A ≠ "__proto__" →
  let both := handle t1 connA (register A) ;; handle t2 connB (register A) in
  users (state_after both st) !! A = Some connB
  ∧ users_at (users (state_after both st)) A = text connB
  ∧ role (socket_of (state_after both st) connB) = Some A
  ∧ effects_of both st = [].
Proof.
  intros HA. unfold_handler. unfold users_set.
  destruct (decide (A = "__proto__")); [done|].
  split_and!; [|apply users_at_own|unfold socket_of; simpl|done].
  - apply lookup_insert_eq.
  - apply lookup_insert_eq.
  - by rewrite lookup_insert_eq.
Qed.

(** C5 at its failing input.  Two sockets register the role [__proto__],
    first sA, then sB.  The assignment [users["__proto__"] = socket.id]
    stores nothing: [users] has no entry for the role afterwards, reading
    [users["__proto__"]] gives the inherited prototype object and not sB,
    and a call addressed to the role is sent to that object as room, not to
    sB.  Each socket did record the role on itself. *)
Theorem register_proto_is_not_stored :
  users (exec registered_proto) !! "__proto__" = None
  ∧ users_at (users (exec registered_proto)) "__proto__" = inherited "__proto__"
  ∧ role (socket_of (exec registered_proto) "sB") = Some "__proto__"
  ∧ effects_of (handle 1002 "sC" (call "userC" "__proto__" "offer")) (exec registered_proto)
    = [EmitToInherited "__proto__" (incoming_call "userC" "offer");
       EmitToInherited "__proto__" (call_session_info "userC___proto___1002")].
Proof. by vm_compute. Qed.

(** ** Calls *)

(** What a call to a registered target does in general.  With the own
    entry [cB] of [B] in [users], a [call] from [A] to [B] writes the record
    of the call under the identifier it computes, leaving every other entry
    of the table as it was, and sends exactly two messages, both to [cB]:
    one [incoming-call] carrying [A] and the offer, then one
    [call-session-info] carrying the identifier.  Only when the identifier
    was not in use does the table grow, by exactly one record. *)
Theorem call_to_registered_target (st : Server) (now : Z)
    (cA A B : string) (offer : Payload) (cB : string) :
  users st !! B = Some cB → cB ≠ "" →
  let k := new_sessionId A B now in
  let h := handle now cA (call A B offer) in
  activeCallSessions (state_after h st)
    = <[k := {| from := A; to := B; status := calling |}]> (activeCallSessions st)
  ∧ effects_of h st = [Emit cB (incoming_call A offer); Emit cB (call_session_info k)]
  ∧ (activeCallSessions st !! k = None →
     size (activeCallSessions (state_after h st)) = S (size (activeCallSessions st))).
Proof.
  intros HB Hne. unfold_handler. rewrite (room_of_own _ _ _ HB Hne). simpl.
  split_and!; [done..|]. intros Hk. by apply map_size_insert_None.
Qed.

Lemma call_to_registered_target_witness :
  users (exec two_party_call) !! "userB" = Some "sB" ∧ "sB" ≠ ""
  ∧ activeCallSessions (exec two_party_call) !! "userA_userB_2000" = None
  ∧ effects_of (handle 2000 "sA" (call "userA" "userB" "offer2")) (exec two_party_call)
    = [Emit "sB" (incoming_call "userA" "offer2");
       Emit "sB" (call_session_info "userA_userB_2000")]
  ∧ size (activeCallSessions
            (state_after (handle 2000 "sA" (call "userA" "userB" "offer2"))
               (exec two_party_call))) = 2.
Proof.
  pose proof (call_to_registered_target (exec two_party_call) 2000
                "sA" "userA" "userB" "offer2" "sB" eq_refl ltac:(discriminate))
    as (_ & Hout & Hsize).
  split_and!; [reflexivity|discriminate|reflexivity|exact Hout|].
  exact (Hsize eq_refl).
Defined.

(** C1 at its failing input.  userB is registered on sB and userA has
    called userB at clock reading 1001.  A second call from userA to userB
    handled at the same clock reading sends its [incoming-call] and its
    [call-session-info] to sB, as the claim says, but it creates no new
    session record: it computes the identifier of the first call and writes
    the same record over it, so that the table afterwards is the table
    before, with one record. *)
Theorem call_on_reused_id_adds_no_record :
  users (exec (take 2 same_ms_calls)) !! "userB" = Some "sB"
  ∧ effects_of (handle 1001 "sA" (call "userA" "userB" "offer2"))
      (exec (take 2 same_ms_calls))
    = [Emit "sB" (incoming_call "userA" "offer2");
       Emit "sB" (call_session_info "userA_userB_1001")]
  ∧ activeCallSessions
      (state_after (handle 1001 "sA" (call "userA" "userB" "offer2"))
         (exec (take 2 same_ms_calls)))
    = activeCallSessions (exec (take 2 same_ms_calls))
  ∧ size (activeCallSessions
            (state_after (handle 1001 "sA" (call "userA" "userB" "offer2"))
               (exec (take 2 same_ms_calls)))) = 1.
Proof. by vm_compute. Qed.

(** ** Recording requests *)

Lemma on_start_recording_request_rejected (st : Server) (c src dst : string) :
  session_of_socket st c = None →
  on_start_recording_request c src dst st
    = (tt, st, [Warn ("No active session found for " +:+ src +:+ " to start recording.")]).
Proof.
  unfold session_of_socket. intros H. unfold_handler.
  destruct (sessionId (socket_of st c)) as [k|]; simpl in *; [|done].
  destruct (decide (k = "")); simpl; [done|]. by rewrite H.
Qed.

Lemma on_stop_recording_request_rejected (st : Server) (c src dst : string) :
  session_of_socket st c = None →
  on_stop_recording_request c src dst st
    = (tt, st, [Warn ("No active session found for " +:+ src +:+ " to stop recording.")]).
Proof.
  unfold session_of_socket. intros H. unfold_handler.
  destruct (sessionId (socket_of st c)) as [k|]; simpl in *; [|done].
  destruct (decide (k = "")); simpl; [done|]. by rewrite H.
Qed.

(** C7. In every state in which the sending socket resolves no session of
    the table (it has no [sessionId] link, or the linked id is no longer in
    [activeCallSessions]), a start- or stop-recording request leaves the
    state as it is and its only effect is the warning: no signal is emitted
    to either party, and there is no call to the media relay. *)
Theorem recording_request_without_session (st : Server) (now : Z) (c src dst : string) :
  session_of_socket st c = None →
  handle now c (start_recording_request src dst) st
    = (tt, st, [Warn ("No active session found for " +:+ src +:+ " to start recording.")])
  ∧ handle now c (stop_recording_request src dst) st
    = (tt, st, [Warn ("No active session found for " +:+ src +:+ " to stop recording.")]).
Proof.
  intros H. split.
  - by apply on_start_recording_request_rejected.
  - by apply on_stop_recording_request_rejected.
Qed.

Lemma recording_request_without_session_witness :
  session_of_socket (exec two_party_call) "sB" = None ∧
  effects_of (handle 1003 "sB" (start_recording_request "userB" "userA")) (exec two_party_call)
  = [Warn "No active session found for userB to start recording."].
Proof.
  split; [reflexivity|].
  unfold effects_of.
  by rewrite (proj1 (recording_request_without_session (exec two_party_call) 1003
                       "sB" "userB" "userA" eq_refl)).
Defined.

(** ** Disconnects *)

(** C10. When a socket disconnects after its role has been registered again
    by another socket, so that [users] maps the role to that other socket,
    the disconnect handler changes nothing: the whole state is the same
    afterwards, in particular the role still maps to the newer socket and
    every session record, including those naming the role, is still there;
    the handler has no effect either. *)
Theorem stale_disconnect_changes_nothing (st : Server) (now : Z) (c r c' : string) :
  role (socket_of st c) = Some r → users st !! r = Some c' → c' ≠ c →
  handle now c disconnect st = (tt, st, []).
Proof.
  intros Hr Hu Hne. unfold_handler. rewrite Hr. simpl.
  destruct (decide (r = "")); simpl; [done|].
  rewrite (users_at_own _ _ _ Hu). destruct (decide (text c' = text c)) as [[= ?]|]; [done|]. done.
Qed.

Lemma stale_disconnect_changes_nothing_witness :
  role (socket_of (exec reregistered) "sA") = Some "userA" ∧
  users (exec reregistered) !! "userA" = Some "sA2" ∧ "sA2" ≠ "sA" ∧
  handle 1004 "sA" disconnect (exec reregistered) = (tt, exec reregistered, []).
Proof.
  split_and!; [reflexivity|reflexivity|discriminate|].
  apply (stale_disconnect_changes_nothing (exec reregistered) 1004 "sA" "userA" "sA2");
    [reflexivity|reflexivity|discriminate].
Defined.

(** ** Events on a socket that resolves no session *)


Lemma on_end_call_unresolved (st : Server) (c src dst : string) :
  session_of_socket st c = None →
  state_after (on_end_call c src dst) st = st.
Proof.
  unfold session_of_socket. intros H. unfold_handler.
  destruct (room_of (users_at (users st) dst)); simpl; [|done].
  destruct (sessionId (socket_of st c)) as [k|]; simpl in *; [|done].
  destruct (decide (k = "")); simpl; [done|]. by rewrite H.
Qed.


(** ** Ending a session *)




(** ** Answering *)

(** C2 at its failing input: userA on socket sA calls userB on socket sB,
    and userB answers on sB.  The answer is relayed, one [call-answered]
    carrying userB and the answer goes to sA, but the session created by the
    call still has status [calling]: sB has no [sessionId] link, so the
    update of the status is skipped. *)
Theorem callee_answer_leaves_session_calling :
  effects_of (step (ev 1003 "sB" (answer "userB" "userA" "answer"))) (exec two_party_call)
    = [Emit "sA" (call_answered "userB" "answer")]
  ∧ sessionId (socket_of (exec two_party_call) "sB") = None
  ∧ activeCallSessions (exec two_party_call) !! "userA_userB_1002"
    = Some {| from := "userA"; to := "userB"; status := calling |}
  ∧ activeCallSessions (exec answered_call) !! "userA_userB_1002"
    = Some {| from := "userA"; to := "userB"; status := calling |}.
Proof. by vm_compute. Qed.

(** ** Ending twice *)

Lemma on_end_call_effects (st : Server) (c src dst : string) :
  (∀ room, users st !! dst = Some room → room ≠ "" →
     effects_of (on_end_call c src dst) st = [Emit room (call_ended src)])
  ∧ (users st !! dst = None → dst ∉ Object_prototype →
     effects_of (on_end_call c src dst) st = []).
Proof.
  split.
  - intros room Hu Hroom. unfold_handler. rewrite (room_of_own _ _ _ Hu Hroom). simpl.
    destruct (truthy (sessionId (socket_of st c))) as [k|]; simpl; [|done].
    by destruct (activeCallSessions st !! k).
  - intros Hu Hn. unfold_handler. by rewrite (room_of_absent _ _ Hu Hn).
Qed.

(** C4 (as amended).  Two consecutive [end-call] events for the same pair
    on the same socket leave the server in the same state as one: the second
    changes no state.  Each of the two is relayed on its own: the effects of
    the two are the effects of one, twice, and one [end-call] to a present
    target is exactly one [call-ended] carrying the sender's name, sent to
    the target's socket; so the target receives two.  Only when the target
    is absent do both events do nothing. *)
Theorem end_call_twice (st : Server) (t1 t2 : Z) (c src dst : string) :
  state_after (handle t1 c (end_call src dst) ;; handle t2 c (end_call src dst)) st
    = state_after (handle t1 c (end_call src dst)) st
  ∧ effects_of (handle t1 c (end_call src dst) ;; handle t2 c (end_call src dst)) st
    = effects_of (handle t1 c (end_call src dst)) st
      ++ effects_of (handle t1 c (end_call src dst)) st
  ∧ (∀ room, users st !! dst = Some room → room ≠ "" →
       effects_of (handle t1 c (end_call src dst)) st = [Emit room (call_ended src)]
       ∧ effects_of (handle t1 c (end_call src dst) ;; handle t2 c (end_call src dst)) st
         = [Emit room (call_ended src); Emit room (call_ended src)])
  ∧ (users st !! dst = None → dst ∉ Object_prototype →
       effects_of (handle t1 c (end_call src dst) ;; handle t2 c (end_call src dst)) st
       = []).
Proof.
  assert (state_after (handle t1 c (end_call src dst) ;; handle t2 c (end_call src dst)) st
            = state_after (handle t1 c (end_call src dst)) st
          ∧ effects_of (handle t1 c (end_call src dst) ;; handle t2 c (end_call src dst)) st
            = effects_of (handle t1 c (end_call src dst)) st
              ++ effects_of (handle t1 c (end_call src dst)) st) as [Hst Heff].
  { unfold_handler.
    destruct (room_of (users_at (users st) dst)) as [room|] eqn:Hu; simpl;
      [|by rewrite Hu].
    destruct (truthy (sessionId (socket_of st c))) as [k|] eqn:Hk; simpl.
    - destruct (activeCallSessions st !! k) eqn:Hs; simpl; rewrite Hu; simpl.
      + unfold socket_of in *. simpl. rewrite Hk. simpl.
        by rewrite lookup_delete_eq.
      + rewrite Hk. simpl. by rewrite Hs.
    - rewrite Hu. simpl. by rewrite Hk. }
  destruct (on_end_call_effects st c src dst) as [Hpresent Habsent].
  split_and!; [exact Hst|exact Heff| |].
  - intros room Hu Hroom. rewrite Heff. simpl.
    by rewrite (Hpresent room Hu Hroom).
  - intros Hu Hn. rewrite Heff. simpl. by rewrite (Habsent Hu Hn).
Qed.

Lemma end_call_twice_witness :
  users (exec two_party_call) !! "userB" = Some "sB" ∧ "sB" ≠ ""
  ∧ effects_of (handle 1003 "sA" (end_call "userA" "userB") ;;
                handle 1004 "sA" (end_call "userA" "userB")) (exec two_party_call)
    = [Emit "sB" (call_ended "userA"); Emit "sB" (call_ended "userA")]
  ∧ state_after (handle 1003 "sA" (end_call "userA" "userB") ;;
                 handle 1004 "sA" (end_call "userA" "userB")) (exec two_party_call)
    = state_after (handle 1003 "sA" (end_call "userA" "userB")) (exec two_party_call).
Proof.
  destruct (end_call_twice (exec two_party_call) 1003 1004 "sA" "userA" "userB")
    as (Hst & _ & Hpresent & _).
  split_and!; [reflexivity|discriminate| |exact Hst].
  exact (proj2 (Hpresent "sB" eq_refl ltac:(discriminate))).
Defined.

(** C4 fails as stated: after the two-party call, two [end-call] events
    from userA's socket send two [call-ended] messages to userB's socket,
    one [end-call] sends one; the second event is not a no-op. *)
Lemma second_end_call_is_relayed :
  emits (effects_of (handle 1003 "sA" (end_call "userA" "userB") ;;
                     handle 1004 "sA" (end_call "userA" "userB")) (exec two_party_call))
    = [("sB", call_ended "userA"); ("sB", call_ended "userA")]
  ∧ emits (effects_of (handle 1003 "sA" (end_call "userA" "userB")) (exec two_party_call))
    = [("sB", call_ended "userA")].
Proof. by vm_compute. Qed.

(** ** Session identifiers *)

(** For one pair the identifier determines the clock reading: two calls of
    the same pair get the same identifier only when [Date.now()] returned
    the same number for both. *)
Lemma new_sessionId_same_pair (src dst : string) (t1 t2 : Z) :
  new_sessionId src dst t1 = new_sessionId src dst t2 → t1 = t2.
Proof.
  unfold new_sessionId. intros H.
  do 4 apply String.app_inj in H. by apply (inj pretty) in H.
Qed.

(** C6 at its failing inputs.  Two calls from userA to userB handled within
    the same millisecond are given the same session id: both
    [call-session-info] messages carry it and the table holds one record
    after the two calls.  Two calls of different pairs whose names
    concatenate to the same text collide as well: the record of the first
    call (from a_b to c) is overwritten by the record of the second (from a
    to b_c). *)
Theorem same_clock_reading_reuses_session_id :
  emits (effects_of (run same_ms_calls) init)
    = [("sB", incoming_call "userA" "offer1");
       ("sB", call_session_info "userA_userB_1001");
       ("sB", incoming_call "userA" "offer2");
       ("sB", call_session_info "userA_userB_1001")]
  ∧ size (activeCallSessions (exec same_ms_calls)) = 1
  ∧ activeCallSessions (exec (take 3 same_text_calls)) !! "a_b_c_1001"
    = Some {| from := "a_b"; to := "c"; status := calling |}
  ∧ activeCallSessions (exec same_text_calls) !! "a_b_c_1001"
    = Some {| from := "a"; to := "b_c"; status := calling |}
  ∧ size (activeCallSessions (exec same_text_calls)) = 1.
Proof. by vm_compute. Qed.

(** ** Status of a session *)

(** X18. What one event can do to an entry of the session table: delete it,
    leave it, mark it connected in place, or, when the event is a call that
    computes the very same identifier, replace it by a new [calling]
    record. *)
Lemma handle_session_cases (st : Server) (now : Z) (c : string) (e : Event)
    (k : string) (s : Session) :
  activeCallSessions st !! k = Some s →
  activeCallSessions (state_after (handle now c e) st) !! k = None
  ∨ activeCallSessions (state_after (handle now c e) st) !! k = Some s
  ∨ activeCallSessions (state_after (handle now c e) st) !! k
    = Some (set_status connected s)
  ∨ ∃ src dst offer, e = call src dst offer ∧ k = new_sessionId src dst now
      ∧ activeCallSessions (state_after (handle now c e) st) !! k
        = Some {| from := src; to := dst; status := calling |}.
Proof.
  intros Hs. destruct e as [r|src dst offer|src dst p|src dst p|src dst|src dst|src dst|];
    unfold_handler.
  - tauto.
  - destruct (room_of (users_at (users st) dst)); simpl; [|tauto].
    destruct (decide (new_sessionId src dst now = k)) as [<-|Hne].
    + do 3 right. exists src, dst, offer. by rewrite lookup_insert_eq.
    + rewrite lookup_insert_ne by done. tauto.
  - destruct (room_of (users_at (users st) dst)); simpl; [|tauto].
    destruct (truthy (sessionId (socket_of st c))) as [k'|]; simpl; [|tauto].
    destruct (activeCallSessions st !! k') eqn:E; simpl; [|tauto].
    rewrite lookup_alter. destruct (decide (k' = k)) as [->|]; rewrite Hs; simpl; tauto.
  - destruct (room_of (users_at (users st) dst)); simpl; tauto.
  - destruct (room_of (users_at (users st) dst)); simpl; [|tauto].
    destruct (truthy (sessionId (socket_of st c))) as [k'|]; simpl; [|tauto].
    destruct (activeCallSessions st !! k') eqn:E; simpl; [|tauto].
    destruct (decide (k' = k)) as [->|].
    + rewrite lookup_delete_eq. tauto.
    + rewrite lookup_delete_ne by done. tauto.
  - destruct (truthy (sessionId (socket_of st c))) as [k'|]; simpl; [|tauto].
    destruct (activeCallSessions st !! k'); simpl; [|tauto].
    destruct (room_of (users_at (users st) src)), (room_of (users_at (users st) dst)); simpl; tauto.
  - destruct (truthy (sessionId (socket_of st c))) as [k'|]; simpl; [|tauto].
    destruct (activeCallSessions st !! k'); simpl; [|tauto].
    destruct (room_of (users_at (users st) src)), (room_of (users_at (users st) dst)); simpl; tauto.
  - destruct (truthy (role (socket_of st c))) as [r|]; simpl; [|tauto].
    destruct (decide (users_at (users st) r = text c)); simpl; [|tauto].
    rewrite cleanup_sessions_lookup, Hs. destruct (decide (involves r s)); tauto.
Qed.

(** C8 at its failing input.  userB and userA dial each other; userB's
    answer marks userB's outgoing session connected; userB then dials again
    before the clock has advanced, and the call handler stores a new record
    under the same identifier: the status under that identifier goes from
    [connected] back to [calling]. *)
Theorem session_status_moves_backward :
  activeCallSessions (exec glare) !! "userB_userA_1002"
    = Some {| from := "userB"; to := "userA"; status := calling |}
  ∧ activeCallSessions (exec glare_answered) !! "userB_userA_1002"
    = Some {| from := "userB"; to := "userA"; status := connected |}
  ∧ activeCallSessions (exec glare_redial) !! "userB_userA_1002"
    = Some {| from := "userB"; to := "userA"; status := calling |}.
Proof. by vm_compute. Qed.

(** ** Events on the callee's socket *)

Lemma on_call_other_sockets (st : Server) (now : Z) (cA A B : string) (offer : Payload)
    (c : string) :
  c ≠ cA →
  socket_of (state_after (handle now cA (call A B offer)) st) c = socket_of st c.
Proof.
  intros Hne. unfold_handler.
  destruct (room_of (users_at (users st) B)); simpl; [|done].
  unfold socket_of. simpl. by rewrite lookup_insert_ne.
Qed.

(** A socket resolves no session when its link, if it has a truthy one,
    names no record of the table. *)
Lemma no_live_link_unresolved (st : Server) (c : string) :
  (∀ k, sessionId (socket_of st c) = Some k → k ≠ "" →
        activeCallSessions st !! k = None) →
  match truthy (sessionId (socket_of st c)) with
  | Some k => activeCallSessions st !! k = None
  | None => True
  end.
Proof.
  intros H. destruct (truthy (sessionId (socket_of st c))) as [k|] eqn:E; [|done].
  apply truthy_is_Some in E as [E ?]. by apply H.
Qed.

Lemma on_answer_no_live_link (st : Server) (c src dst : string) (p : Payload) :
  (∀ k, sessionId (socket_of st c) = Some k → k ≠ "" →
        activeCallSessions st !! k = None) →
  state_after (on_answer c src dst p) st = st.
Proof.
  intros H%no_live_link_unresolved. unfold_handler.
  destruct (room_of (users_at (users st) dst)); simpl; [|done].
  destruct (truthy (sessionId (socket_of st c))) as [k|]; simpl; [|done].
  by rewrite H.
Qed.

Lemma on_end_call_no_live_link (st : Server) (c src dst : string) :
  (∀ k, sessionId (socket_of st c) = Some k → k ≠ "" →
        activeCallSessions st !! k = None) →
  state_after (on_end_call c src dst) st = st.
Proof.
  intros H%no_live_link_unresolved. unfold_handler.
  destruct (room_of (users_at (users st) dst)); simpl; [|done].
  destruct (truthy (sessionId (socket_of st c))) as [k|]; simpl; [|done].
  by rewrite H.
Qed.

Lemma on_start_recording_no_live_link (st : Server) (c src dst : string) :
  (∀ k, sessionId (socket_of st c) = Some k → k ≠ "" →
        activeCallSessions st !! k = None) →
  on_start_recording_request c src dst st
    = (tt, st, [Warn ("No active session found for " +:+ src +:+ " to start recording.")]).
Proof.
  intros H%no_live_link_unresolved. unfold_handler.
  destruct (truthy (sessionId (socket_of st c))) as [k|]; simpl; [|done].
  by rewrite H.
Qed.

Lemma on_stop_recording_no_live_link (st : Server) (c src dst : string) :
  (∀ k, sessionId (socket_of st c) = Some k → k ≠ "" →
        activeCallSessions st !! k = None) →
  on_stop_recording_request c src dst st
    = (tt, st, [Warn ("No active session found for " +:+ src +:+ " to stop recording.")]).
Proof.
  intros H%no_live_link_unresolved. unfold_handler.
  destruct (truthy (sessionId (socket_of st c))) as [k|]; simpl; [|done].
  by rewrite H.
Qed.

(** C9 (as amended).  The call handler links only the socket the call
    arrived on: that socket's [sessionId] becomes the new id and every other
    socket object is left as it was.  So when [B]'s socket is another socket
    than the caller's, and its own [sessionId] link, if it has one, names no
    record of the table and is not the id given to the new call, then,
    while the new session is in the table with status [calling], an
    [answer] or an [end-call] arriving on [B]'s socket changes no state (no
    status transition, no record deleted) and a start- or stop-recording
    request on it changes nothing and only warns that there is no active
    session. *)
Theorem callee_without_live_link_resolves_nothing (st : Server) (now later : Z)
    (cA A B : string) (offer : Payload) (cB src dst : string) (p : Payload) :
  users st !! B = Some cB → cB ≠ "" → cB ≠ cA →
  (∀ k, sessionId (socket_of st cB) = Some k → k ≠ "" →
        activeCallSessions st !! k = None) →
  sessionId (socket_of st cB) ≠ Some (new_sessionId A B now) →
  let k := new_sessionId A B now in
  let st1 := state_after (handle now cA (call A B offer)) st in
  sessionId (socket_of st1 cA) = Some k
  ∧ (∀ c, c ≠ cA → socket_of st1 c = socket_of st c)
  ∧ activeCallSessions st1 !! k = Some {| from := A; to := B; status := calling |}
  ∧ state_after (handle later cB (answer src dst p)) st1 = st1
  ∧ state_after (handle later cB (end_call src dst)) st1 = st1
  ∧ handle later cB (start_recording_request src dst) st1
    = (tt, st1, [Warn ("No active session found for " +:+ src +:+ " to start recording.")])
  ∧ handle later cB (stop_recording_request src dst) st1
    = (tt, st1, [Warn ("No active session found for " +:+ src +:+ " to stop recording.")]).
Proof.
  intros HB Hroom Hne Hstale Hnew k st1.
  assert (activeCallSessions st1
          = <[k := {| from := A; to := B; status := calling |}]> (activeCallSessions st))
    as Htable.
  { subst st1. unfold_handler. by rewrite (room_of_own _ _ _ HB Hroom). }
  assert (∀ k', sessionId (socket_of st1 cB) = Some k' → k' ≠ "" →
                activeCallSessions st1 !! k' = None) as Hnone.
  { intros k' Hlink Hk'. subst st1. rewrite on_call_other_sockets in Hlink by done.
    rewrite Htable, lookup_insert_ne; [by apply Hstale|].
    intros <-. by apply Hnew. }
  split_and!.
  - subst st1. unfold_handler. rewrite (room_of_own _ _ _ HB Hroom). simpl.
    unfold socket_of. simpl. by rewrite lookup_insert_eq.
  - intros c Hc. by apply on_call_other_sockets.
  - rewrite Htable. apply lookup_insert_eq.
  - by apply on_answer_no_live_link.
  - by apply on_end_call_no_live_link.
  - by apply on_start_recording_no_live_link.
  - by apply on_stop_recording_no_live_link.
Qed.

Lemma callee_without_live_link_resolves_nothing_witness :
  users (exec callee_stale_link) !! "userB" = Some "sB" ∧ "sB" ≠ "" ∧ "sB" ≠ "sA"
  ∧ sessionId (socket_of (exec callee_stale_link) "sB") = Some "userB_userA_1002"
  ∧ activeCallSessions (exec callee_stale_link) !! "userB_userA_1002" = None
  ∧ state_after (handle 1005 "sB" (answer "userB" "userA" "answer"))
      (state_after (handle 1004 "sA" (call "userA" "userB" "offer")) (exec callee_stale_link))
    = state_after (handle 1004 "sA" (call "userA" "userB" "offer")) (exec callee_stale_link).
Proof.
  split_and!; [reflexivity|discriminate|discriminate|reflexivity|reflexivity|].
  apply (callee_without_live_link_resolves_nothing (exec callee_stale_link) 1004 1005
           "sA" "userA" "userB" "offer" "sB" "userB" "userA" "answer");
    [reflexivity|discriminate|discriminate| |discriminate].
  intros k Hk _. injection Hk as <-. reflexivity.
Defined.

(** The second condition on the callee's link cannot be dropped.  A call
    under the names userA and userB was made and ended on socket sB, whose
    link is stale; userA's call at the same clock reading gets the same
    identifier, and an [answer] on sB then marks userA's new session
    connected. *)
Lemma stale_link_can_name_the_new_call :
  sessionId (socket_of (exec (take 4 stale_link_reused)) "sB") = Some "userA_userB_1002"
  ∧ activeCallSessions (exec (take 4 stale_link_reused)) !! "userA_userB_1002" = None
  ∧ activeCallSessions (exec stale_link_reused) !! "userA_userB_1002"
    = Some {| from := "userA"; to := "userB"; status := calling |}
  ∧ activeCallSessions
      (state_after (handle 1003 "sB" (answer "userB" "userA" "answer"))
         (exec stale_link_reused)) !! "userA_userB_1002"
    = Some {| from := "userA"; to := "userB"; status := connected |}.
Proof. by vm_compute. Qed.

(** C9 fails as stated.  userB has dialled userA from socket sB, and userA
    then calls userB.  Events arriving on sB, the socket of the target of
    userA's call, resolve userB's own outgoing session: an [answer] turns
    its status from [calling] to [connected], an [end-call] deletes it, and
    a start-recording request is accepted and signalled to both parties. *)
Lemma callee_with_own_call_resolves_a_session :
  users (exec glare) !! "userB" = Some "sB"
  ∧ activeCallSessions (exec glare) !! "userA_userB_1002"
    = Some {| from := "userA"; to := "userB"; status := calling |}
  ∧ activeCallSessions (exec glare) !! "userB_userA_1002"
    = Some {| from := "userB"; to := "userA"; status := calling |}
  ∧ activeCallSessions
      (state_after (handle 1003 "sB" (answer "userB" "userA" "answer")) (exec glare))
      !! "userB_userA_1002"
    = Some {| from := "userB"; to := "userA"; status := connected |}
  ∧ activeCallSessions
      (state_after (handle 1003 "sB" (end_call "userB" "userA")) (exec glare))
      !! "userB_userA_1002" = None
  ∧ effects_of (handle 1003 "sB" (start_recording_request "userB" "userA")) (exec glare)
    = [Emit "sB" (start_recording_signal "userB");
       Emit "sA" (start_recording_signal "userB")].
Proof. by vm_compute. Qed.

(** * Further properties of the handlers *)

(** ** Events addressed to an absent target *)

(** X1. When the addressed role has no entry in [users] and is no member
    name of [Object.prototype], so that [users[to]] is [undefined], a
    [call], an [answer], an [ice-candidate] and an [end-call] are dropped
    whole: no message, no warning, and the state is untouched.  In
    particular an [answer] does not mark the sender's session connected and
    an [end-call] does not delete it, since both updates sit inside the
    [if (users[to])] branch. *)
Theorem absent_target_drops_event (st : Server) (now : Z) (c src dst : string)
    (p : Payload) :
  users st !! dst = None → dst ∉ Object_prototype →
  handle now c (call src dst p) st = (tt, st, [])
  ∧ handle now c (answer src dst p) st = (tt, st, [])
  ∧ handle now c (ice src dst p) st = (tt, st, [])
  ∧ handle now c (end_call src dst) st = (tt, st, []).
Proof. intros H Hn. unfold_handler. by rewrite (room_of_absent _ _ H Hn). Qed.

Lemma absent_target_drops_event_witness :
  users (exec two_party_call) !! "userC" = None
  ∧ ("userC" ∉ Object_prototype)
  ∧ session_of_socket (exec two_party_call) "sA"
    = Some {| from := "userA"; to := "userB"; status := calling |}
  ∧ handle 1003 "sA" (end_call "userA" "userC") (exec two_party_call)
    = (tt, exec two_party_call, []).
Proof.
  assert ("userC" ∉ Object_prototype) as Hn.
  { apply (bool_decide_unpack _). by vm_compute. }
  split_and!; [reflexivity|exact Hn|reflexivity|].
  apply (absent_target_drops_event (exec two_party_call) 1003 "sA" "userA" "userC" "x");
    [reflexivity|exact Hn].
Defined.

(** ** Which objects a handler touches *)

(** X2. [users] is assigned only by [register] and [disconnect], the
    socket properties only by [register] and [call], and the session table
    only by [call], [answer], [end-call] and [disconnect]: every other
    event leaves the object exactly as it was.  So an [ice-candidate] or a
    recording request never changes any state. *)
Theorem handlers_frame (st : Server) (now : Z) (c : string) (e : Event) :
  (writes_users e = false → users (state_after (handle now c e) st) = users st)
  ∧ (writes_sockets e = false → sockets (state_after (handle now c e) st) = sockets st)
  ∧ (writes_sessions e = false →
     activeCallSessions (state_after (handle now c e) st) = activeCallSessions st).
Proof.
  destruct e as [r|src dst offer|src dst p|src dst p|src dst|src dst|src dst|];
    unfold_handler; split_and!; try done; intros _.
  - by destruct (room_of (users_at (users st) dst)).
  - destruct (room_of (users_at (users st) dst)); simpl; [|done].
    destruct (truthy (sessionId (socket_of st c))) as [k|]; simpl; [|done].
    by destruct (activeCallSessions st !! k).
  - destruct (room_of (users_at (users st) dst)); simpl; [|done].
    destruct (truthy (sessionId (socket_of st c))) as [k|]; simpl; [|done].
    by destruct (activeCallSessions st !! k).
  - by destruct (room_of (users_at (users st) dst)).
  - by destruct (room_of (users_at (users st) dst)).
  - by destruct (room_of (users_at (users st) dst)).
  - destruct (room_of (users_at (users st) dst)); simpl; [|done].
    destruct (truthy (sessionId (socket_of st c))) as [k|]; simpl; [|done].
    by destruct (activeCallSessions st !! k).
  - destruct (room_of (users_at (users st) dst)); simpl; [|done].
    destruct (truthy (sessionId (socket_of st c))) as [k|]; simpl; [|done].
    by destruct (activeCallSessions st !! k).
  - destruct (truthy (sessionId (socket_of st c))) as [k|]; simpl; [|done].
    destruct (activeCallSessions st !! k); simpl; [|done].
    by destruct (room_of (users_at (users st) src)), (room_of (users_at (users st) dst)).
  - destruct (truthy (sessionId (socket_of st c))) as [k|]; simpl; [|done].
    destruct (activeCallSessions st !! k); simpl; [|done].
    by destruct (room_of (users_at (users st) src)), (room_of (users_at (users st) dst)).
  - destruct (truthy (sessionId (socket_of st c))) as [k|]; simpl; [|done].
    destruct (activeCallSessions st !! k); simpl; [|done].
    by destruct (room_of (users_at (users st) src)), (room_of (users_at (users st) dst)).
  - destruct (truthy (sessionId (socket_of st c))) as [k|]; simpl; [|done].
    destruct (activeCallSessions st !! k); simpl; [|done].
    by destruct (room_of (users_at (users st) src)), (room_of (users_at (users st) dst)).
  - destruct (truthy (sessionId (socket_of st c))) as [k|]; simpl; [|done].
    destruct (activeCallSessions st !! k); simpl; [|done].
    by destruct (room_of (users_at (users st) src)), (room_of (users_at (users st) dst)).
  - destruct (truthy (sessionId (socket_of st c))) as [k|]; simpl; [|done].
    destruct (activeCallSessions st !! k); simpl; [|done].
    by destruct (room_of (users_at (users st) src)), (room_of (users_at (users st) dst)).
  - destruct (truthy (role (socket_of st c))) as [r|]; simpl; [|done].
    by destruct (decide (users_at (users st) r = text c)).
Qed.

Lemma handlers_frame_witness :
  writes_users (ice "userA" "userB" "cand") = false
  ∧ writes_sockets (ice "userA" "userB" "cand") = false
  ∧ writes_sessions (ice "userA" "userB" "cand") = false
  ∧ users (state_after (handle 1003 "sA" (ice "userA" "userB" "cand")) (exec two_party_call))
    = users (exec two_party_call)
  ∧ sockets (state_after (handle 1003 "sA" (ice "userA" "userB" "cand")) (exec two_party_call))
    = sockets (exec two_party_call)
  ∧ activeCallSessions
      (state_after (handle 1003 "sA" (ice "userA" "userB" "cand")) (exec two_party_call))
    = activeCallSessions (exec two_party_call).
Proof.
  pose proof (handlers_frame (exec two_party_call) 1003 "sA" (ice "userA" "userB" "cand"))
    as (Hu & Hk & Hs).
  split_and!; [reflexivity..|exact (Hu eq_refl)|exact (Hk eq_refl)|exact (Hs eq_refl)].
Defined.

(** ** Where messages go *)

Lemma routed_emit (st : Server) (k : string) (room : Room) (m : Message) :
  room_of (users_at (users st) k) = Some room → routed st (emit_effect room m).
Proof.
  destruct room as [id|member]; simpl.
  - intros [? ?]%room_of_socket_room. eauto.
  - by intros (-> & ? & ?)%room_of_inherited_room.
Qed.

Lemma handle_effects_routed (st : Server) (now : Z) (c : string) (e : Event) :
  Forall (routed st) (effects_of (handle now c e) st).
Proof.
  destruct e as [r|src dst offer|src dst p|src dst p|src dst|src dst|src dst|];
    unfold_handler.
  - constructor.
  - destruct (room_of (users_at (users st) dst)) as [b|] eqn:Hb; simpl;
      repeat constructor; by eapply routed_emit.
  - destruct (room_of (users_at (users st) dst)) as [b|] eqn:Hb; simpl;
      [|constructor].
    destruct (truthy (sessionId (socket_of st c))) as [k|]; simpl;
      [destruct (activeCallSessions st !! k); simpl|];
      repeat constructor; by eapply routed_emit.
  - destruct (room_of (users_at (users st) dst)) as [b|] eqn:Hb; simpl;
      repeat constructor; by eapply routed_emit.
  - destruct (room_of (users_at (users st) dst)) as [b|] eqn:Hb; simpl;
      [|constructor].
    destruct (truthy (sessionId (socket_of st c))) as [k|]; simpl;
      [destruct (activeCallSessions st !! k); simpl|];
      repeat constructor; by eapply routed_emit.
  - destruct (truthy (sessionId (socket_of st c))) as [k|]; simpl;
      [destruct (activeCallSessions st !! k); simpl|];
      [|by repeat constructor..].
    destruct (room_of (users_at (users st) src)) as [a|] eqn:Ha,
             (room_of (users_at (users st) dst)) as [b|] eqn:Hb; simpl;
      repeat constructor; by eapply routed_emit.
  - destruct (truthy (sessionId (socket_of st c))) as [k|]; simpl;
      [destruct (activeCallSessions st !! k); simpl|];
      [|by repeat constructor..].
    destruct (room_of (users_at (users st) src)) as [a|] eqn:Ha,
             (room_of (users_at (users st) dst)) as [b|] eqn:Hb; simpl;
      repeat constructor; by eapply routed_emit.
  - destruct (truthy (role (socket_of st c))) as [r|]; simpl; [|constructor].
    destruct (decide (users_at (users st) r = text c)); simpl; constructor.
Qed.

Lemma register_disconnect_silent (st : Server) (now : Z) (c : string) (e : Event) :
  writes_users e = true → effects_of (handle now c e) st = [].
Proof.
  destruct e as [r|src dst offer|src dst p|src dst p|src dst|src dst|src dst|];
    try done; intros _; unfold_handler; try done.
  destruct (truthy (role (socket_of st c))) as [r|]; simpl; [|done].
  by destruct (decide (users_at (users st) r = text c)).
Qed.

(** X3. Whatever the event, every message a handler sends to a socket id
    goes to a room that is, at that moment, the non-empty socket id stored
    in [users] for some role; the only other room a message can be given
    is the value [users] inherits from [Object.prototype] under a member
    name that has no own entry.  Nothing is broadcast, and [register] and
    [disconnect] send nothing at all. *)
Theorem messages_go_to_registered_sockets (st : Server) (now : Z) (c : string)
    (e : Event) :
  (∀ room m, Emit room m ∈ effects_of (handle now c e) st →
     ∃ r, users st !! r = Some room ∧ room ≠ "")
  ∧ (∀ k m, EmitToInherited k m ∈ effects_of (handle now c e) st →
       users st !! k = None ∧ k ∈ Object_prototype)
  ∧ (writes_users e = true → effects_of (handle now c e) st = []).
Proof.
  pose proof (handle_effects_routed st now c e) as H.
  rewrite Forall_forall in H. split_and!.
  - intros room m Hin. exact (H _ Hin).
  - intros k m Hin. exact (H _ Hin).
  - apply register_disconnect_silent.
Qed.

Lemma messages_go_to_registered_sockets_witness :
  Emit "sB" (incoming_call "userA" "offer")
    ∈ effects_of (handle 1002 "sA" (call "userA" "userB" "offer")) (exec two_registered)
  ∧ (∃ r, users (exec two_registered) !! r = Some "sB" ∧ "sB" ≠ "")
  ∧ writes_users disconnect = true
  ∧ effects_of (handle 1002 "sB" disconnect) (exec two_registered) = [].
Proof.
  assert (Emit "sB" (incoming_call "userA" "offer")
    ∈ effects_of (handle 1002 "sA" (call "userA" "userB" "offer")) (exec two_registered))
    as H by (vm_compute; left).
  split_and!; [exact H| |reflexivity|].
  - exact (proj1 (messages_go_to_registered_sockets (exec two_registered) 1002 "sA"
                    (call "userA" "userB" "offer")) _ _ H).
  - exact (proj2 (proj2 (messages_go_to_registered_sockets (exec two_registered) 1002 "sB"
                           disconnect)) eq_refl).
Defined.

(** ** Events on a socket linked to a live session *)

(** X4. An [answer] arriving on a socket whose [sessionId] names a record of
    the table, and addressed to a present role, sets the status of that
    record to [connected] and keeps its two names; the rest of the state is
    untouched and the only effect is the relayed [call-answered].  The
    names in the event are not compared with the record: whichever target
    the answer is addressed to, it is the sender's linked session that is
    marked. *)
Theorem answer_on_linked_socket (st : Server) (now : Z) (c src dst : string)
    (p : Payload) (k : string) (s : Session) (room : string) :
  sessionId (socket_of st c) = Some k → k ≠ "" →
  activeCallSessions st !! k = Some s →
  users st !! dst = Some room → room ≠ "" →
  handle now c (answer src dst p) st
  = (tt,
     {| users := users st;
        activeCallSessions :=
          <[k := {| from := from s; to := to s; status := connected |}]>
            (activeCallSessions st);
        sockets := sockets st |},
     [Emit room (call_answered src p)]).
Proof.
  intros Hlink Hk Hs Hu Hroom. unfold_handler.
  rewrite (room_of_own _ _ _ Hu Hroom). simpl.
  rewrite Hlink, (truthy_Some k Hk). simpl. rewrite Hs. simpl.
  do 3 f_equal. apply map_eq. intros k'.
  rewrite lookup_alter, lookup_insert.
  destruct (decide (k = k')) as [<-|]; [by rewrite Hs|done].
Qed.

Lemma answer_on_linked_socket_witness :
  sessionId (socket_of (exec two_party_call) "sA") = Some "userA_userB_1002"
  ∧ "userA_userB_1002" ≠ ""
  ∧ activeCallSessions (exec two_party_call) !! "userA_userB_1002"
    = Some {| from := "userA"; to := "userB"; status := calling |}
  ∧ users (exec two_party_call) !! "userB" = Some "sB" ∧ "sB" ≠ ""
  ∧ activeCallSessions
      (state_after (handle 1003 "sA" (answer "userA" "userB" "sdp")) (exec two_party_call))
      !! "userA_userB_1002"
    = Some {| from := "userA"; to := "userB"; status := connected |}.
Proof.
  split_and!; [reflexivity|discriminate|reflexivity|reflexivity|discriminate|].
  unfold state_after.
  rewrite (answer_on_linked_socket (exec two_party_call) 1003 "sA" "userA" "userB" "sdp"
             "userA_userB_1002" {| from := "userA"; to := "userB"; status := calling |}
             "sB" eq_refl ltac:(discriminate) eq_refl eq_refl ltac:(discriminate)).
  reflexivity.
Defined.

(** X5. A start- or stop-recording request arriving on a socket whose
    [sessionId] names a record of the table is accepted whatever the status
    of that record (also while it is still [calling]): the state is
    untouched and, both roles being present, exactly two signals are sent,
    first to the socket of [from], then to the socket of [to], both
    carrying [from]; there is no warning. *)
Theorem recording_request_on_linked_socket (st : Server) (now : Z) (c src dst : string)
    (k : string) (s : Session) (a b : string) :
  sessionId (socket_of st c) = Some k → k ≠ "" →
  activeCallSessions st !! k = Some s →
  users st !! src = Some a → a ≠ "" →
  users st !! dst = Some b → b ≠ "" →
  handle now c (start_recording_request src dst) st
    = (tt, st, [Emit a (start_recording_signal src); Emit b (start_recording_signal src)])
  ∧ handle now c (stop_recording_request src dst) st
    = (tt, st, [Emit a (stop_recording_signal src); Emit b (stop_recording_signal src)]).
Proof.
  intros Hlink Hk Hs Ha Hane Hb Hbne. unfold_handler.
  rewrite Hlink, (truthy_Some k Hk). simpl. rewrite Hs. simpl.
  by rewrite (room_of_own _ _ _ Ha Hane), (room_of_own _ _ _ Hb Hbne).
Qed.

Lemma recording_request_on_linked_socket_witness :
  sessionId (socket_of (exec two_party_call) "sA") = Some "userA_userB_1002"
  ∧ "userA_userB_1002" ≠ ""
  ∧ activeCallSessions (exec two_party_call) !! "userA_userB_1002"
    = Some {| from := "userA"; to := "userB"; status := calling |}
  ∧ users (exec two_party_call) !! "userA" = Some "sA" ∧ "sA" ≠ ""
  ∧ users (exec two_party_call) !! "userB" = Some "sB" ∧ "sB" ≠ ""
  ∧ handle 1003 "sA" (start_recording_request "userA" "userB") (exec two_party_call)
    = (tt, exec two_party_call,
       [Emit "sA" (start_recording_signal "userA");
        Emit "sB" (start_recording_signal "userA")]).
Proof.
  split_and!;
    [reflexivity|discriminate|reflexivity|reflexivity|discriminate|reflexivity|discriminate|].
  apply (recording_request_on_linked_socket (exec two_party_call) 1003 "sA" "userA" "userB"
           "userA_userB_1002" {| from := "userA"; to := "userB"; status := calling |}
           "sA" "sB");
    [reflexivity|discriminate|reflexivity|reflexivity|discriminate|reflexivity|discriminate].
Defined.

(** ** Disconnects *)

Lemma on_disconnect_owner (st : Server) (c r : string) :
  role (socket_of st c) = Some r → r ≠ "" → users st !! r = Some c →
  on_disconnect c st
  = (tt,
     {| users := delete r (users st);
        activeCallSessions := filter (λ kv, ¬ involves r kv.2) (activeCallSessions st);
        sockets := sockets st |},
     []).
Proof.
  intros Hrole Hr Hu. unfold_handler.
  rewrite Hrole, (truthy_Some r Hr). simpl. rewrite (users_at_own _ _ _ Hu).
  destruct (decide (text c = text c)); [|done]. simpl.
  by rewrite cleanup_sessions_filter.
Qed.

(** X6. When the socket that disconnects still owns the [users] entry of
    its non-empty role, the handler deletes that entry and exactly the
    session records having the role as initiator or as target; every other
    role, every other record and all socket properties stay, and nothing is
    sent: the other party of a removed session gets no [call-ended]. *)
Theorem disconnect_of_registered_socket (st : Server) (now : Z) (c r : string) :
  role (socket_of st c) = Some r → r ≠ "" → users st !! r = Some c →
  handle now c disconnect st
  = (tt,
     {| users := delete r (users st);
        activeCallSessions := filter (λ kv, ¬ involves r kv.2) (activeCallSessions st);
        sockets := sockets st |},
     []).
Proof. intros. by apply on_disconnect_owner. Qed.

Lemma disconnect_of_registered_socket_witness :
  role (socket_of (exec two_party_call) "sB") = Some "userB" ∧ "userB" ≠ ""
  ∧ users (exec two_party_call) !! "userB" = Some "sB"
  ∧ effects_of (handle 1003 "sB" disconnect) (exec two_party_call) = []
  ∧ users (state_after (handle 1003 "sB" disconnect) (exec two_party_call)) !! "userA"
    = Some "sA".
Proof.
  pose proof (disconnect_of_registered_socket (exec two_party_call) 1003 "sB" "userB"
                eq_refl ltac:(discriminate) eq_refl) as H.
  split_and!; [reflexivity|discriminate|reflexivity|..].
  - unfold effects_of. by rewrite H.
  - unfold state_after. rewrite H. reflexivity.
Defined.

(** X7. After such a disconnect of a role that is no member name of
    [Object.prototype], the role is absent: a later [call] addressed to it,
    on any socket, is dropped without message and without change of
    state. *)
Theorem call_after_disconnect_is_dropped (st : Server) (now later : Z)
    (c r c' src : string) (offer : Payload) :
  role (socket_of st c) = Some r → r ≠ "" → users st !! r = Some c →
  r ∉ Object_prototype →
  handle later c' (call src r offer) (state_after (handle now c disconnect) st)
  = (tt, state_after (handle now c disconnect) st, []).
Proof.
  intros Hrole Hr Hu Hn. unfold state_after at 1 2. simpl.
  rewrite (on_disconnect_owner st c r Hrole Hr Hu). simpl.
  unfold_handler. by rewrite room_of_absent by (by rewrite ?lookup_delete_eq).
Qed.

Lemma call_after_disconnect_is_dropped_witness :
  role (socket_of (exec two_party_call) "sB") = Some "userB" ∧ "userB" ≠ ""
  ∧ users (exec two_party_call) !! "userB" = Some "sB"
  ∧ ("userB" ∉ Object_prototype)
  ∧ effects_of (handle 1004 "sA" (call "userA" "userB" "offer2"))
      (state_after (handle 1003 "sB" disconnect) (exec two_party_call)) = [].
Proof.
  assert ("userB" ∉ Object_prototype) as Hn.
  { apply (bool_decide_unpack _). by vm_compute. }
  split_and!; [reflexivity|discriminate|reflexivity|exact Hn|].
  unfold effects_of.
  by rewrite (call_after_disconnect_is_dropped (exec two_party_call) 1003 1004
                "sB" "userB" "sA" "userA" "offer2" eq_refl ltac:(discriminate) eq_refl Hn).
Defined.

(** X8. A socket that never registered, or that registered the empty string
    as its role, is not unregistered when it disconnects: [socket.role] is
    falsy, so the handler changes nothing.  After [register("")] the entry
    [users[""]] therefore outlives its socket. *)
Theorem disconnect_without_role (st : Server) (now : Z) (c : string) :
  role (socket_of st c) = None ∨ role (socket_of st c) = Some "" →
  handle now c disconnect st = (tt, st, []).
Proof. intros [H|H]; unfold_handler; by rewrite H. Qed.

Lemma disconnect_without_role_witness :
  (role (socket_of (state_after (handle 1000 "s1" (register "")) init) "s1") = None
   ∨ role (socket_of (state_after (handle 1000 "s1" (register "")) init) "s1") = Some "")
  ∧ users (state_after (handle 1001 "s1" disconnect)
             (state_after (handle 1000 "s1" (register "")) init)) !! "" = Some "s1".
Proof.
  assert (role (socket_of (state_after (handle 1000 "s1" (register "")) init) "s1") = None
   ∨ role (socket_of (state_after (handle 1000 "s1" (register "")) init) "s1") = Some "")
    as H by (right; reflexivity).
  split; [exact H|].
  unfold state_after at 1.
  rewrite (disconnect_without_role _ 1001 "s1" H). reflexivity.
Defined.

(** X9. A socket that registers a second role keeps the [users] entry of
    the first: [socket.role] holds the last role only, so the disconnect
    removes the entry of the second role and leaves the first one pointing
    at the socket that is gone.  (Neither role is [__proto__], under which
    nothing is stored.) *)
Theorem first_role_survives_disconnect (st : Server) (t1 t2 t3 : Z) (c r1 r2 : string) :
  r1 ≠ r2 → r2 ≠ "" → r1 ≠ "__proto__" → r2 ≠ "__proto__" →
  users (state_after (handle t1 c (register r1) ;; handle t2 c (register r2) ;;
                      handle t3 c disconnect) st) !! r1 = Some c
  ∧ users (state_after (handle t1 c (register r1) ;; handle t2 c (register r2) ;;
                        handle t3 c disconnect) st) !! r2 = None.
Proof.
  intros Hne Hr2 Hp1 Hp2. rewrite !state_after_bind.
  set (st2 := state_after (handle t2 c (register r2))
                (state_after (handle t1 c (register r1)) st)).
  assert (role (socket_of st2 c) = Some r2) as Hrole.
  { subst st2. unfold_handler. unfold socket_of. simpl. by rewrite lookup_insert_eq. }
  assert (users st2 = <[r2 := c]> (<[r1 := c]> (users st))) as Husers.
  { subst st2. unfold_handler. unfold users_set.
    by destruct (decide (r1 = "__proto__")), (decide (r2 = "__proto__")). }
  assert (users st2 !! r2 = Some c) as Hu.
  { rewrite Husers. apply lookup_insert_eq. }
  pose proof (on_disconnect_owner st2 c r2 Hrole Hr2 Hu) as Hd.
  clearbody st2. unfold state_after. simpl. rewrite Hd. simpl.
  rewrite Husers. split.
  - rewrite lookup_delete_ne by done. rewrite lookup_insert_ne by done.
    apply lookup_insert_eq.
  - apply lookup_delete_eq.
Qed.

Lemma first_role_survives_disconnect_witness :
  "userA" ≠ "admin" ∧ "admin" ≠ "" ∧ "userA" ≠ "__proto__" ∧ "admin" ≠ "__proto__"
  ∧ users (state_after (handle 1 "s1" (register "userA") ;; handle 2 "s1" (register "admin") ;;
                        handle 3 "s1" disconnect) init) !! "userA" = Some "s1".
Proof.
  split_and!; [discriminate..|].
  apply (first_role_survives_disconnect init 1 2 3 "s1" "userA" "admin");
    discriminate.
Defined.

(** X10. The [for ... in] loop of the disconnect handler, which deletes
    entries of the table while it walks over it, keeps a record exactly when
    the record was in the table and names the role neither as initiator nor
    as target; kept records are unchanged. *)
Theorem cleanup_loop_keeps_exactly_the_others (r : string) (m : gmap string Session)
    (k : string) (s : Session) :
  cleanup_sessions r m !! k = Some s ↔ m !! k = Some s ∧ from s ≠ r ∧ to s ≠ r.
Proof.
  rewrite cleanup_sessions_lookup. unfold involves. split.
  - destruct (m !! k) as [s'|]; [|done].
    destruct (decide (from s' = r ∨ to s' = r)) as [|Hn]; [done|].
    intros [= ->]. split_and!; [done|tauto..].
  - intros (-> & ? & ?).
    destruct (decide (from s = r ∨ to s = r)) as [[]|]; done.
Qed.

(** ** Registration followed by a call *)

(** X11. A call addressed to a role other than [__proto__] reaches the
    socket that registered the role last, whatever [users] held before:
    after [register B] on a socket with a non-empty id, a [call] to [B]
    sends its two messages to that socket. *)
Theorem call_reaches_latest_registration (st : Server) (t1 t2 : Z)
    (cB c A B : string) (offer : Payload) :
  cB ≠ "" → B ≠ "__proto__" →
  effects_of (handle t2 c (call A B offer)) (state_after (handle t1 cB (register B)) st)
  = [Emit cB (incoming_call A offer); Emit cB (call_session_info (new_sessionId A B t2))].
Proof.
  intros Hne HB. unfold_handler. unfold users_set.
  destruct (decide (B = "__proto__")); [done|].
  by rewrite (room_of_own _ B cB) by (done || apply lookup_insert_eq).
Qed.

Lemma call_reaches_latest_registration_witness :
  "sB2" ≠ "" ∧ "userB" ≠ "__proto__"
  ∧ effects_of (handle 1004 "sA" (call "userA" "userB" "offer"))
      (state_after (handle 1003 "sB2" (register "userB")) (exec two_party_call))
    = [Emit "sB2" (incoming_call "userA" "offer");
       Emit "sB2" (call_session_info "userA_userB_1004")].
Proof.
  split_and!; [discriminate|discriminate|].
  apply (call_reaches_latest_registration (exec two_party_call) 1003 1004
           "sB2" "sA" "userA" "userB" "offer"); discriminate.
Defined.

(** ** The session link of a socket *)

(** X12. No handler ever clears [socket.sessionId]: after any event a linked
    socket is still linked to the same id, unless the event is a [call] on
    that very socket that went through, in which case the link is the id of
    the new call.  In particular the link stays after [end-call] has
    deleted the record it names. *)
Theorem session_link_is_never_cleared (st : Server) (now : Z) (c : string) (e : Event)
    (c' k : string) :
  sessionId (socket_of st c') = Some k →
  sessionId (socket_of (state_after (handle now c e) st) c') = Some k
  ∨ ∃ src dst offer, e = call src dst offer ∧ c' = c
      ∧ sessionId (socket_of (state_after (handle now c e) st) c')
        = Some (new_sessionId src dst now).
Proof.
  intros Hlink.
  destruct e as [r|src dst offer|src dst p|src dst p|src dst|src dst|src dst|];
    unfold_handler.
  - left. unfold socket_of in *. simpl. rewrite lookup_insert.
    case_decide; [subst c'|]; done.
  - destruct (room_of (users_at (users st) dst)); simpl; [|by left].
    unfold socket_of in *. simpl. rewrite lookup_insert.
    case_decide; [subst c'; right; by exists src, dst, offer|by left].
  - left. destruct (room_of (users_at (users st) dst)); simpl; [|done].
    destruct (truthy (sessionId (socket_of st c))) as [k'|]; simpl; [|done].
    by destruct (activeCallSessions st !! k').
  - left. by destruct (room_of (users_at (users st) dst)).
  - left. destruct (room_of (users_at (users st) dst)); simpl; [|done].
    destruct (truthy (sessionId (socket_of st c))) as [k'|]; simpl; [|done].
    by destruct (activeCallSessions st !! k').
  - left. destruct (truthy (sessionId (socket_of st c))) as [k'|]; simpl; [|done].
    destruct (activeCallSessions st !! k'); simpl; [|done].
    by destruct (room_of (users_at (users st) src)), (room_of (users_at (users st) dst)).
  - left. destruct (truthy (sessionId (socket_of st c))) as [k'|]; simpl; [|done].
    destruct (activeCallSessions st !! k'); simpl; [|done].
    by destruct (room_of (users_at (users st) src)), (room_of (users_at (users st) dst)).
  - left. destruct (truthy (role (socket_of st c))) as [r|]; simpl; [|done].
    by destruct (decide (users_at (users st) r = text c)).
Qed.

Lemma session_link_is_never_cleared_witness :
  sessionId (socket_of (exec two_party_call) "sA") = Some "userA_userB_1002"
  ∧ activeCallSessions
      (state_after (handle 1003 "sA" (end_call "userA" "userB")) (exec two_party_call))
      !! "userA_userB_1002" = None
  ∧ sessionId (socket_of (state_after (handle 1003 "sA" (end_call "userA" "userB"))
                            (exec two_party_call)) "sA") = Some "userA_userB_1002".
Proof.
  split_and!; [reflexivity|reflexivity|].
  destruct (session_link_is_never_cleared (exec two_party_call) 1003 "sA"
              (end_call "userA" "userB") "sA" "userA_userB_1002" eq_refl)
    as [H|(src & dst & offer & Habs & _)]; [exact H|discriminate Habs].
Defined.

(** X13. A socket has one link only, and a later call on it replaces it.
    After two calls from the same socket that got different ids, an
    [end-call] on that socket for the second call deletes the second record
    and leaves the first one in the table, still [calling], with no socket
    linked to it. *)
Theorem second_call_orphans_first (st : Server) (t1 t2 t3 : Z) (c : string)
    (src1 dst1 : string) (o1 : Payload) (src2 dst2 : string) (o2 : Payload)
    (b1 b2 : string) :
  users st !! dst1 = Some b1 → b1 ≠ "" →
  users st !! dst2 = Some b2 → b2 ≠ "" →
  new_sessionId src1 dst1 t1 ≠ new_sessionId src2 dst2 t2 →
  let st' := state_after (handle t1 c (call src1 dst1 o1) ;;
                          handle t2 c (call src2 dst2 o2) ;;
                          handle t3 c (end_call src2 dst2)) st in
  activeCallSessions st' !! new_sessionId src1 dst1 t1
    = Some {| from := src1; to := dst1; status := calling |}
  ∧ activeCallSessions st' !! new_sessionId src2 dst2 t2 = None
  ∧ sessionId (socket_of st' c) = Some (new_sessionId src2 dst2 t2).
Proof.
  intros H1 Hb1 H2 Hb2 Hne. unfold_handler.
  rewrite (room_of_own _ _ _ H1 Hb1). simpl.
  rewrite (room_of_own _ _ _ H2 Hb2). simpl.
  rewrite (room_of_own _ _ _ H2 Hb2). simpl.
  unfold socket_of. simpl. rewrite !lookup_insert_eq.
  cbn [default from_option id set_sessionId sessionId].
  rewrite (truthy_Some _ (new_sessionId_nonempty src2 dst2 t2)). simpl.
  rewrite lookup_insert_eq. simpl.
  split_and!.
  - rewrite lookup_delete_ne by done. rewrite lookup_insert_ne by done.
    apply lookup_insert_eq.
  - apply lookup_delete_eq.
  - unfold socket_of. simpl. by rewrite lookup_insert_eq.
Qed.

Lemma second_call_orphans_first_witness :
  users (exec two_registered) !! "userB" = Some "sB" ∧ "sB" ≠ ""
  ∧ new_sessionId "userA" "userB" 1002 ≠ new_sessionId "userA" "userB" 1005
  ∧ activeCallSessions
      (state_after (handle 1002 "sA" (call "userA" "userB" "offer1") ;;
                    handle 1005 "sA" (call "userA" "userB" "offer2") ;;
                    handle 1009 "sA" (end_call "userA" "userB")) (exec two_registered))
      !! "userA_userB_1002"
    = Some {| from := "userA"; to := "userB"; status := calling |}.
Proof.
  split_and!; [reflexivity|discriminate|discriminate|].
  apply (second_call_orphans_first (exec two_registered) 1002 1005 1009 "sA"
           "userA" "userB" "offer1" "userA" "userB" "offer2" "sB" "sB");
    [reflexivity|discriminate|reflexivity|discriminate|discriminate].
Defined.

(** ** The session table along a run *)

(** X14. A record appears under an identifier that was free only through a
    [call] that computes this identifier, and it is then the [calling]
    record of that call: no other handler adds an entry to the table. *)
Theorem sessions_are_created_only_by_call (st : Server) (now : Z) (c : string)
    (e : Event) (k : string) :
  activeCallSessions st !! k = None →
  is_Some (activeCallSessions (state_after (handle now c e) st) !! k) →
  ∃ src dst offer, e = call src dst offer ∧ k = new_sessionId src dst now
    ∧ activeCallSessions (state_after (handle now c e) st) !! k
      = Some {| from := src; to := dst; status := calling |}.
Proof.
  intros Hk.
  destruct e as [r|src dst offer|src dst p|src dst p|src dst|src dst|src dst|];
    unfold_handler.
  - rewrite Hk. by intros [? [=]].
  - destruct (room_of (users_at (users st) dst)); simpl; [|rewrite Hk; by intros [? [=]]].
    destruct (decide (new_sessionId src dst now = k)) as [<-|Hne].
    + intros _. exists src, dst, offer. by rewrite lookup_insert_eq.
    + rewrite lookup_insert_ne by done. rewrite Hk. by intros [? [=]].
  - destruct (room_of (users_at (users st) dst)); simpl; [|rewrite Hk; by intros [? [=]]].
    destruct (truthy (sessionId (socket_of st c))) as [k'|]; simpl;
      [|rewrite Hk; by intros [? [=]]].
    destruct (activeCallSessions st !! k') eqn:E; simpl;
      [|rewrite Hk; by intros [? [=]]].
    rewrite lookup_alter. destruct (decide (k' = k)) as [->|]; [congruence|].
    rewrite Hk. by intros [? [=]].
  - destruct (room_of (users_at (users st) dst)); simpl; rewrite Hk; by intros [? [=]].
  - destruct (room_of (users_at (users st) dst)); simpl; [|rewrite Hk; by intros [? [=]]].
    destruct (truthy (sessionId (socket_of st c))) as [k'|]; simpl;
      [|rewrite Hk; by intros [? [=]]].
    destruct (activeCallSessions st !! k') eqn:E; simpl;
      [|rewrite Hk; by intros [? [=]]].
    rewrite lookup_delete. case_decide; [|rewrite Hk]; by intros [? [=]].
  - destruct (truthy (sessionId (socket_of st c))) as [k'|]; simpl;
      [|rewrite Hk; by intros [? [=]]].
    destruct (activeCallSessions st !! k'); simpl; [|rewrite Hk; by intros [? [=]]].
    destruct (room_of (users_at (users st) src)), (room_of (users_at (users st) dst)); simpl;
      rewrite Hk; by intros [? [=]].
  - destruct (truthy (sessionId (socket_of st c))) as [k'|]; simpl;
      [|rewrite Hk; by intros [? [=]]].
    destruct (activeCallSessions st !! k'); simpl; [|rewrite Hk; by intros [? [=]]].
    destruct (room_of (users_at (users st) src)), (room_of (users_at (users st) dst)); simpl;
      rewrite Hk; by intros [? [=]].
  - destruct (truthy (role (socket_of st c))) as [r|]; simpl;
      [|rewrite Hk; by intros [? [=]]].
    destruct (decide (users_at (users st) r = text c)); simpl;
      [|rewrite Hk; by intros [? [=]]].
    rewrite cleanup_sessions_lookup, Hk. by intros [? [=]].
Qed.

Lemma sessions_are_created_only_by_call_witness :
  activeCallSessions (exec two_registered) !! "userA_userB_1002" = None
  ∧ is_Some (activeCallSessions
               (state_after (handle 1002 "sA" (call "userA" "userB" "offer"))
                  (exec two_registered)) !! "userA_userB_1002")
  ∧ ∃ src dst offer,
      call "userA" "userB" "offer" = call src dst offer
      ∧ "userA_userB_1002" = new_sessionId src dst 1002
      ∧ activeCallSessions
          (state_after (handle 1002 "sA" (call "userA" "userB" "offer"))
             (exec two_registered)) !! "userA_userB_1002"
        = Some {| from := src; to := dst; status := calling |}.
Proof.
  assert (is_Some (activeCallSessions
               (state_after (handle 1002 "sA" (call "userA" "userB" "offer"))
                  (exec two_registered)) !! "userA_userB_1002")) as H.
  { exists {| from := "userA"; to := "userB"; status := calling |}. reflexivity. }
  split_and!; [reflexivity|exact H|].
  exact (sessions_are_created_only_by_call (exec two_registered) 1002 "sA"
           (call "userA" "userB" "offer") "userA_userB_1002" eq_refl H).
Defined.

Lemma handle_keyed_by_pair (st : Server) (now : Z) (c : string) (e : Event) :
  keyed_by_pair (activeCallSessions st) →
  keyed_by_pair (activeCallSessions (state_after (handle now c e) st)).
Proof.
  intros Hinv.
  destruct e as [r|src dst offer|src dst p|src dst p|src dst|src dst|src dst|];
    unfold_handler.
  - done.
  - destruct (room_of (users_at (users st) dst)) as [room|]; simpl; [|done].
    intros k s. rewrite lookup_insert. case_decide as E.
    + intros [= <-]. simpl. by exists now.
    + apply Hinv.
  - destruct (room_of (users_at (users st) dst)) as [room|]; simpl; [|done].
    destruct (truthy (sessionId (socket_of st c))) as [k'|]; simpl; [|done].
    destruct (activeCallSessions st !! k') as [s0|] eqn:E; simpl; [|done].
    intros k s. rewrite lookup_alter. case_decide as E'; [|apply Hinv].
    subst k'. rewrite E. simpl. intros [= <-]. simpl. by apply Hinv.
  - by destruct (room_of (users_at (users st) dst)).
  - destruct (room_of (users_at (users st) dst)) as [room|]; simpl; [|done].
    destruct (truthy (sessionId (socket_of st c))) as [k'|]; simpl; [|done].
    destruct (activeCallSessions st !! k') as [s0|] eqn:E; simpl; [|done].
    intros k s. rewrite lookup_delete. case_decide; [done|apply Hinv].
  - destruct (truthy (sessionId (socket_of st c))) as [k'|]; simpl; [|done].
    destruct (activeCallSessions st !! k'); simpl; [|done].
    by destruct (room_of (users_at (users st) src)), (room_of (users_at (users st) dst)).
  - destruct (truthy (sessionId (socket_of st c))) as [k'|]; simpl; [|done].
    destruct (activeCallSessions st !! k'); simpl; [|done].
    by destruct (room_of (users_at (users st) src)), (room_of (users_at (users st) dst)).
  - destruct (truthy (role (socket_of st c))) as [r|]; simpl; [|done].
    destruct (decide (users_at (users st) r = text c)); simpl; [|done].
    intros k s. rewrite cleanup_sessions_lookup.
    destruct (activeCallSessions st !! k) as [s'|] eqn:E; [|done].
    destruct (decide (involves r s')); [done|]. intros [= <-]. by apply Hinv.
Qed.

Lemma run_keyed_by_pair (tr : list Input) (st : Server) :
  keyed_by_pair (activeCallSessions st) →
  keyed_by_pair (activeCallSessions (state_after (run tr) st)).
Proof.
  revert st. induction tr as [|i tr IH]; intros st Hst; [done|].
  simpl. rewrite state_after_bind. apply IH. by apply handle_keyed_by_pair.
Qed.

(** X15. Along every sequence of events from the empty server, each record
    of the session table sits under an identifier built from the record's
    own initiator and target and some clock reading: the key and the
    record never drift apart, also when the status is updated in place. *)
Theorem records_stay_under_their_own_id (tr : list Input) (k : string) (s : Session) :
  activeCallSessions (exec tr) !! k = Some s →
  ∃ t, k = new_sessionId (from s) (to s) t.
Proof.
  apply (run_keyed_by_pair tr init). intros k' s'. simpl. by rewrite lookup_empty.
Qed.

Lemma records_stay_under_their_own_id_witness :
  activeCallSessions (exec glare_answered) !! "userB_userA_1002"
    = Some {| from := "userB"; to := "userA"; status := connected |}
  ∧ ∃ t, "userB_userA_1002" = new_sessionId "userB" "userA" t.
Proof.
  split; [reflexivity|].
  exact (records_stay_under_their_own_id glare_answered "userB_userA_1002"
           {| from := "userB"; to := "userA"; status := connected |} eq_refl).
Defined.

(** X17. Along every sequence of events that arrive on sockets with
    non-empty ids, starting from the empty server, whatever is stored stays
    truthy: a role found in [users] passes the [if (users[to])] test with
    the stored socket id, and a [sessionId] found on a socket passes the
    [!sessionId] test. *)
Theorem stored_ids_are_truthy (tr : list Input) :
  Forall (λ i, on_socket i ≠ "") tr →
  (∀ r id, users (exec tr) !! r = Some id → truthy (users (exec tr) !! r) = Some id)
  ∧ (∀ c k, sessionId (socket_of (exec tr) c) = Some k →
            truthy (sessionId (socket_of (exec tr) c)) = Some k).
Proof.
  intros Htr.
  destruct (run_well_formed tr init Htr init_well_formed) as [Hu Hs].
  split.
  - intros r id H. rewrite H. apply truthy_Some. by eapply Hu.
  - intros c k H. rewrite H. apply truthy_Some. by eapply Hs.
Qed.

Lemma stored_ids_are_truthy_witness :
  Forall (λ i, on_socket i ≠ "") two_calls_one_socket
  ∧ truthy (users (exec two_calls_one_socket) !! "userC") = Some "sC"
  ∧ truthy (sessionId (socket_of (exec two_calls_one_socket) "sA"))
    = Some "userA_userC_1004".
Proof.
  assert (Forall (λ i, on_socket i ≠ "") two_calls_one_socket) as H.
  { repeat constructor; discriminate. }
  destruct (stored_ids_are_truthy two_calls_one_socket H) as [Hu Hs].
  split_and!; [exact H|exact (Hu "userC" "sC" eq_refl)|
               exact (Hs "sA" "userA_userC_1004" eq_refl)].
Defined.

Lemma handle_session_cases_witness :
  activeCallSessions (exec two_party_call) !! "userA_userB_1002"
    = Some {| from := "userA"; to := "userB"; status := calling |}
  ∧ activeCallSessions
      (state_after (handle 1003 "sA" (answer "userA" "userB" "sdp")) (exec two_party_call))
      !! "userA_userB_1002"
    = Some {| from := "userA"; to := "userB"; status := connected |}.
Proof.
  split; [reflexivity|].
  destruct (handle_session_cases (exec two_party_call) 1003 "sA"
              (answer "userA" "userB" "sdp") "userA_userB_1002"
              {| from := "userA"; to := "userB"; status := calling |} eq_refl)
    as [H|[H|[H|(src & dst & offer & Habs & _)]]].
  - exfalso. revert H. by vm_compute.
  - exfalso. revert H. by vm_compute.
  - exact H.
  - discriminate Habs.
Defined.

(** ** Identifiers of underscore-free names *)

Lemma split_at_first_underscore (a a' r r' : string) :
  underscore_free a → underscore_free a' →
  a +:+ "_" +:+ r = a' +:+ "_" +:+ r' → a = a' ∧ r = r'.
Proof.
  revert a'. induction a as [|x a IH]; intros [|x' a']; simpl.
  - intros _ _ H. by simplify_eq.
  - intros _ H Heq. simplify_eq. by destruct (decide ("_"%char = "_"%char)).
  - intros H _ Heq. simplify_eq. by destruct (decide ("_"%char = "_"%char)).
  - destruct (decide (x = "_"%char)); [done|].
    destruct (decide (x' = "_"%char)); [done|].
    intros Ha Ha' Heq. simplify_eq.
    match goal with H : _ +:+ _ = _ +:+ _ |- _ =>
      by destruct (IH a' Ha Ha' H) as [-> ->] end.
Qed.

(** X16. When the names of the two parties contain no underscore, the
    identifier determines the initiator, the target and the clock reading:
    two calls that differ in one of the three get different identifiers.
    (With an underscore in a name the text can be split in two ways, and
    different pairs can share an identifier.) *)
Theorem new_sessionId_distinct (src dst src' dst' : string) (t t' : Z) :
  underscore_free src → underscore_free dst →
  underscore_free src' → underscore_free dst' →
  (src, dst, t) ≠ (src', dst', t') →
  new_sessionId src dst t ≠ new_sessionId src' dst' t'.
Proof.
  intros Hs Hd Hs' Hd' Hne Heq. apply Hne. unfold new_sessionId in Heq.
  apply split_at_first_underscore in Heq as [-> Heq]; [|done..].
  apply split_at_first_underscore in Heq as [-> Heq]; [|done..].
  by apply (inj pretty) in Heq as ->.
Qed.

Lemma new_sessionId_distinct_witness :
  underscore_free "userA" ∧ underscore_free "userB"
  ∧ ("userA", "userB", 1002%Z) ≠ ("userB", "userA", 1002%Z)
  ∧ new_sessionId "userA" "userB" 1002 ≠ new_sessionId "userB" "userA" 1002.
Proof.
  split_and!; [exact I|exact I|discriminate|].
  apply (new_sessionId_distinct "userA" "userB" "userB" "userA" 1002 1002);
    [exact I|exact I|exact I|exact I|discriminate].
Defined.

(** ** Targets named like a member of the prototype *)

(** X19. A call addressed to a member name of [Object.prototype] that has no
    own entry in [users] is not dropped: [users[to]] is the inherited value,
    which is truthy, so the handler writes the session record, links the
    calling socket to it, and gives both of its messages the inherited
    value as room, where no socket listens. *)
Theorem call_to_inherited_name_goes_through (st : Server) (now : Z)
    (c src dst : string) (offer : Payload) :
  users st !! dst = None → dst ∈ Object_prototype →
  handle now c (call src dst offer) st
  = (tt,
     {| users := users st;
        activeCallSessions :=
          <[new_sessionId src dst now := {| from := src; to := dst; status := calling |}]>
            (activeCallSessions st);
        sockets :=
          <[c := {| role := role (socket_of st c);
                    sessionId := Some (new_sessionId src dst now) |}]> (sockets st) |},
     [EmitToInherited dst (incoming_call src offer);
      EmitToInherited dst (call_session_info (new_sessionId src dst now))]).
Proof.
  intros Hu Hin. unfold_handler. by rewrite (room_of_inherited _ _ Hu Hin).
Qed.

Lemma call_to_inherited_name_goes_through_witness :
  users (exec two_registered) !! "constructor" = None
  ∧ "constructor" ∈ Object_prototype
  ∧ effects_of (handle 1002 "sA" (call "userA" "constructor" "offer")) (exec two_registered)
    = [EmitToInherited "constructor" (incoming_call "userA" "offer");
       EmitToInherited "constructor" (call_session_info "userA_constructor_1002")]
  ∧ activeCallSessions
      (state_after (handle 1002 "sA" (call "userA" "constructor" "offer"))
         (exec two_registered)) !! "userA_constructor_1002"
    = Some {| from := "userA"; to := "constructor"; status := calling |}.
Proof.
  assert ("constructor" ∈ Object_prototype) as Hin by (vm_compute; left).
  pose proof (call_to_inherited_name_goes_through (exec two_registered) 1002
                "sA" "userA" "constructor" "offer" eq_refl Hin) as H.
  split_and!; [reflexivity|exact Hin|..].
  - unfold effects_of. by rewrite H.
  - unfold state_after. rewrite H. reflexivity.
Defined.
